(** * HuggingFace File Checker: reconciliation engine

    A shallow embedding of the reconciliation logic of
    [src/tampermonkey/hf-file-checker.user.js]: the batch-lookup matching
    of file rows, the hash enrichment from the cached repository manifest,
    the folder aggregator [calculateFolderStatus], the repository context
    resolver [getRepoInfoFromUrl], the page pass [scanCurrentPage] with its
    [isScanning] guard and [try]/[finally], and the debounced
    [MutationObserver] callback of [init].

    Conventions of the model:
    - JavaScript [null]/[undefined] string fields are [option string];
      a JavaScript truthiness test on such a field is [truthy].
    - The JSON object [results] of [/api/check/batch] is a [gmap string].
    - The DOM is reduced to the file rows and folder rows the script
      annotates: for each, its [data-hfc-processed] flag and the status of
      the [.hfc-icon] it carries, if any.
    - Answers of the local server are an explicit environment [Env]: every
      awaited request of one pass reads its answer from it; [None] stands
      for a request that rejects (network error, HTTP error, timeout). *)

From Stdlib Require Import String Ascii.
From stdpp Require Import base gmap strings list.

Local Open Scope string_scope.

(* ------------------------------------------------------------------ *)
(** ** String helpers (the JavaScript builtins the code uses) *)

Definition truthy_str (s : string) : bool := negb (String.eqb s "").

(** [x || ''] on a nullable string, then a truthiness test. *)
Definition or_empty (o : option string) : string :=
  match o with Some s => s | None => "" end.

Definition truthy (o : option string) : bool := truthy_str (or_empty o).

(** [String.prototype.toLowerCase], on the ASCII range. *)
Definition lower_char (c : ascii) : ascii :=
  let n := nat_of_ascii c in
  if (65 <=? n)%nat && (n <=? 90)%nat then ascii_of_nat (n + 32) else c.

Fixpoint toLowerCase (s : string) : string :=
  match s with
  | EmptyString => EmptyString
  | String c s' => String (lower_char c) (toLowerCase s')
  end.

(** [String.prototype.trim], on the ASCII white space characters. *)
Definition is_ws (c : ascii) : bool :=
  let n := nat_of_ascii c in
  (n =? 32)%nat || ((9 <=? n)%nat && (n <=? 13)%nat).

Fixpoint trim_start (s : string) : string :=
  match s with
  | EmptyString => EmptyString
  | String c s' => if is_ws c then trim_start s' else s
  end.

Fixpoint rev_str (s : string) (acc : string) : string :=
  match s with
  | EmptyString => acc
  | String c s' => rev_str s' (String c acc)
  end.

Definition trim (s : string) : string :=
  rev_str (trim_start (rev_str (trim_start s) "")) "".

(** [s.startsWith(p)] and [s.endsWith(p)]. *)
Definition startsWith (s p : string) : bool := String.prefix p s.

Definition endsWith (s p : string) : bool :=
  String.prefix (rev_str p "") (rev_str s "").

(** [s.includes(p)]. *)
Fixpoint includes (s p : string) : bool :=
  String.prefix p s ||
  match s with
  | EmptyString => false
  | String _ s' => includes s' p
  end.

(** [s.split('/')], with JavaScript's empty pieces kept. *)
Fixpoint split_slash_aux (s acc : string) : list string :=
  match s with
  | EmptyString => [rev_str acc ""]
  | String c s' =>
      if Ascii.eqb c "/"%char then rev_str acc "" :: split_slash_aux s' ""
      else split_slash_aux s' (String c acc)
  end.

Definition split_slash (s : string) : list string := split_slash_aux s "".

(** The last piece of [s.split('/')], as [.pop()] returns it. *)
Definition last_segment (s : string) : string :=
  List.last (split_slash s) "".

(* ------------------------------------------------------------------ *)
(** ** Data model *)

(** One entry of [results] in the answer of [/api/check/batch]. *)
Record BatchEntry := mkBatchEntry {
  found : bool;
  mismatch : bool;
  directories : list string
}.

Definition Results := gmap string BatchEntry.

(** One element of [files] in the answer of [/api/check/repo]
    (the fields the reconciliation reads). *)
Record ManifestEntry := mkManifestEntry {
  me_path : option string;
  me_filename : string;
  me_sha256 : option string;
  me_status : string
}.

(** The answer of [/api/check/repo], cached in [state.repoData]. *)
Record RepoData := mkRepoData {
  repo_id : string;
  rd_total_files : nat;
  rd_found : nat;
  rd_missing : nat;
  rd_mismatch : nat;
  rd_files : list ManifestEntry
}.

(** The row objects built by [findAllFileRows]; [row_elem] is the index
    of the DOM row ([element]) they annotate. *)
Record FileRow := mkFileRow {
  row_filename : string;
  row_fullPath : option string;
  row_sha256 : option string;
  row_elem : nat
}.

(** The statuses [updateFileIcon] is called with. *)
Inductive Verdict := Loading | Match | Mismatch | Missing | Partial | Unknown.

#[global] Instance Verdict_eq_dec : EqDecision Verdict.
Proof. solve_decision. Defined.

(* ------------------------------------------------------------------ *)
(** ** Matching (the per-row lookup of [scanCurrentPage]) *)

(** The result chosen for a row: [results[sha256]] first when the row
    carries a hash, then [results[filename]]. *)
Definition row_result (results : Results) (r : FileRow) : option BatchEntry :=
  let filename := toLowerCase (trim (row_filename r)) in
  let sha256 := toLowerCase (or_empty (row_sha256 r)) in
  let result := if truthy_str sha256 then results !! sha256 else None in
  match result with
  | Some e => Some e
  | None => results !! filename
  end.

(** [if (result && result.found) { if (result.mismatch) ... }]. *)
Definition verdict_of (result : option BatchEntry) : Verdict :=
  match result with
  | Some e => if found e then (if mismatch e then Mismatch else Match) else Missing
  | None => Missing
  end.

Definition row_verdict (results : Results) (r : FileRow) : Verdict :=
  verdict_of (row_result results r).

(* ------------------------------------------------------------------ *)
(** ** Hash enrichment from the cached manifest *)

(** The predicate of [state.repoData.files.find(f => ...)]. *)
Definition manifest_matches (r : FileRow) (f : ManifestEntry) : bool :=
  bool_decide (me_path f = row_fullPath r) ||
  bool_decide (me_path f = Some (row_filename r)) ||
  String.eqb (me_filename f) (row_filename r) ||
  (truthy (me_path f) && endsWith (or_empty (me_path f)) ("/" ++ row_filename r)).

(** The body of [rows.map(r => ...)] before the batch call, as far as it
    updates [r.sha256]. *)
Definition enrich (repoData : option RepoData) (r : FileRow) : FileRow :=
  match repoData with
  | Some rd =>
      if negb (truthy (row_sha256 r)) then
        match List.find (manifest_matches r) (rd_files rd) with
        | Some f =>
            if truthy (me_sha256 f)
            then mkFileRow (row_filename r) (row_fullPath r) (me_sha256 f) (row_elem r)
            else r
        | None => r
        end
      else r
  | None => r
  end.

(* ------------------------------------------------------------------ *)
(** ** Folder aggregation ([calculateFolderStatus]) *)

Record FolderStats := mkFolderStats {
  fs_status : Verdict;
  fs_found : nat;
  fs_missing : nat;
  fs_mismatch : nat;
  fs_total : nat
}.

(** [f.path || f.filename]. *)
Definition entry_path (f : ManifestEntry) : string :=
  if truthy (me_path f) then or_empty (me_path f) else me_filename f.

Definition in_folder (folderPath : string) (f : ManifestEntry) : bool :=
  let filePath := entry_path f in
  startsWith filePath (folderPath ++ "/") || String.eqb filePath folderPath.

Definition count_status (st : string) (fs : list ManifestEntry) : nat :=
  length (List.filter (fun f => String.eqb (me_status f) st) fs).

Definition calculateFolderStatus (folderPath : string) (allFiles : list ManifestEntry)
    : FolderStats :=
  let filesInFolder := List.filter (in_folder folderPath) allFiles in
  match filesInFolder with
  | [] => mkFolderStats Unknown 0 0 0 0
  | _ :: _ =>
      let found := count_status "found" filesInFolder in
      let missing := count_status "missing" filesInFolder in
      let mismatch := count_status "mismatch" filesInFolder in
      let total := length filesInFolder in
      let status :=
        if (found =? total)%nat then Match
        else if (missing =? total)%nat then Missing
        else if (0 <? found)%nat || (0 <? mismatch)%nat then Partial
        else Missing in
      mkFolderStats status found missing mismatch total
  end.

(* ------------------------------------------------------------------ *)
(** ** Repository context ([getRepoInfoFromUrl]) *)

Inductive RepoType := Model | Dataset | Space.

Record RepoInfo := mkRepoInfo {
  ri_repoId : string;
  ri_repoType : RepoType;
  ri_revision : string
}.

(** [parts.indexOf(x)], [None] for [-1]. *)
Fixpoint index_of (x : string) (l : list string) : option nat :=
  match l with
  | [] => None
  | y :: l' =>
      if String.eqb x y then Some 0%nat
      else option_map S (index_of x l')
  end.

Definition getRepoInfoFromUrl (pathname : string) : option RepoInfo :=
  let parts := List.filter truthy_str (split_slash pathname) in
  let '(repoType, startIdx) :=
    match parts with
    | p :: _ =>
        if String.eqb p "datasets" then (Dataset, 1%nat)
        else if String.eqb p "spaces" then (Space, 1%nat)
        else (Model, 0%nat)
    | [] => (Model, 0%nat)
    end in
  if (length parts <? startIdx + 2)%nat then None
  else
    let owner := nth startIdx parts "" in
    let repo := nth (startIdx + 1) parts "" in
    let revision :=
      match index_of "tree" parts with
      | Some treeIdx =>
          match nth_error parts (treeIdx + 1) with
          | Some r => if truthy_str r then r else "main"
          | None => "main"
          end
      | None => "main"
      end in
    Some (mkRepoInfo (owner ++ "/" ++ repo) repoType revision).

(* ------------------------------------------------------------------ *)
(** ** DOM rows and the script's state *)

(** A file row of the listing: the decoded path of its [/blob/] link
    (branch removed), its [data-hfc-processed] flag and its icon. *)
Record FileElem := mkFileElem {
  fe_path : string;
  fe_processed : bool;
  fe_icon : option Verdict
}.

(** A folder row: the folder path of its [/tree/] link (branch removed),
    its [data-hfc-folder-processed] flag and its icon. *)
Record FolderElem := mkFolderElem {
  fo_path : string;
  fo_processed : bool;
  fo_icon : option Verdict
}.

Record Dom := mkDom {
  dom_files : list FileElem;
  dom_folders : list FolderElem
}.

(** [state.stats]. *)
Record Stats := mkStats {
  matches : nat;
  mismatches : nat;
  missing : nat;
  total : nat
}.

Definition zero_stats : Stats := mkStats 0 0 0 0.

(** [state] and [isScanning], the page's DOM and [window.location];
    [passes] is a ghost counter of the passes that got past the guard. *)
Record State := mkState {
  connected : bool;
  repoData : option RepoData;
  lastUrl : option string;
  stats : Stats;
  isScanning : bool;
  dom : Dom;
  loc_pathname : string;
  loc_href : string;
  passes : nat
}.

Definition set_connected (b : bool) (s : State) : State :=
  mkState b (repoData s) (lastUrl s) (stats s) (isScanning s) (dom s)
    (loc_pathname s) (loc_href s) (passes s).
Definition set_repoData (r : option RepoData) (s : State) : State :=
  mkState (connected s) r (lastUrl s) (stats s) (isScanning s) (dom s)
    (loc_pathname s) (loc_href s) (passes s).
Definition set_lastUrl (u : option string) (s : State) : State :=
  mkState (connected s) (repoData s) u (stats s) (isScanning s) (dom s)
    (loc_pathname s) (loc_href s) (passes s).
Definition set_stats (t : Stats) (s : State) : State :=
  mkState (connected s) (repoData s) (lastUrl s) t (isScanning s) (dom s)
    (loc_pathname s) (loc_href s) (passes s).
Definition set_isScanning (b : bool) (s : State) : State :=
  mkState (connected s) (repoData s) (lastUrl s) (stats s) b (dom s)
    (loc_pathname s) (loc_href s) (passes s).
Definition set_dom (d : Dom) (s : State) : State :=
  mkState (connected s) (repoData s) (lastUrl s) (stats s) (isScanning s) d
    (loc_pathname s) (loc_href s) (passes s).
Definition bump_passes (s : State) : State :=
  mkState (connected s) (repoData s) (lastUrl s) (stats s) (isScanning s) (dom s)
    (loc_pathname s) (loc_href s) (S (passes s)).

(** The answers the local server gives during one pass: [/api/status]
    succeeds or not, [/api/check/repo] and [/api/check/batch] resolve
    ([Some]) or reject ([None]). *)
Record Env := mkEnv {
  env_status : bool;
  env_repo : option RepoData;
  env_batch : option Results
}.

(* ------------------------------------------------------------------ *)
(** ** A state monad with JavaScript's early [return] and [throw] *)

Inductive Outcome (A : Type) := Done (a : A) | Returned | Thrown (e : string).
Arguments Done {A} a.
Arguments Returned {A}.
Arguments Thrown {A} e.

Definition M (A : Type) : Type := State -> Outcome A * State.

#[global] Instance M_ret : MRet M := fun A a s => (Done a, s).
#[global] Instance M_bind : MBind M := fun A B k m s =>
  match m s with
  | (Done a, s') => k a s'
  | (Returned, s') => (Returned, s')
  | (Thrown e, s') => (Thrown e, s')
  end.

Definition get : M State := fun s => (Done s, s).
Definition modify (f : State -> State) : M unit := fun s => (Done tt, f s).
Definition early_return {A} : M A := fun s => (Returned, s).

(** Calling an [async] function and awaiting it: its own [return] ends
    it, not the caller. *)
Definition call (m : M unit) : M unit := fun s =>
  match m s with
  | (Returned, s') => (Done tt, s')
  | r => r
  end.

(** [try { m } finally { fin }]. *)
Definition try_finally {A} (m : M A) (fin : M unit) : M A := fun s =>
  let '(o, s1) := m s in
  let '(o2, s2) := fin s1 in
  match o2 with
  | Done _ => (o, s2)
  | Returned => (Returned, s2)
  | Thrown e => (Thrown e, s2)
  end.

(* ------------------------------------------------------------------ *)
(** ** DOM operations *)

Definition map_files (f : FileElem -> FileElem) (s : State) : State :=
  set_dom (mkDom (List.map f (dom_files (dom s))) (dom_folders (dom s))) s.
Definition map_folders (f : FolderElem -> FolderElem) (s : State) : State :=
  set_dom (mkDom (dom_files (dom s)) (List.map f (dom_folders (dom s)))) s.

(** [document.querySelectorAll('.hfc-icon').forEach(icon => icon.remove())]. *)
Definition clear_icons (s : State) : State :=
  map_folders (fun e => mkFolderElem (fo_path e) (fo_processed e) None)
    (map_files (fun e => mkFileElem (fe_path e) (fe_processed e) None) s).

(** Deleting [hfcProcessed] and [hfcFolderProcessed] everywhere. *)
Definition clear_processed (s : State) : State :=
  map_folders (fun e => mkFolderElem (fo_path e) false (fo_icon e))
    (map_files (fun e => mkFileElem (fe_path e) false (fe_icon e)) s).

(** [updateFileIcon(row.element, v, ...)]: the row's icons are replaced
    by one icon of status [v]. *)
Definition set_icon (v : Verdict) (e : FileElem) : FileElem :=
  mkFileElem (fe_path e) (fe_processed e) (Some v).

Definition set_file_icon (i : nat) (v : Verdict) (s : State) : State :=
  set_dom (mkDom (alter (set_icon v) i (dom_files (dom s))) (dom_folders (dom s))) s.
Definition set_folder_icon (i : nat) (v : Verdict) (s : State) : State :=
  set_dom (mkDom (dom_files (dom s))
                 (alter (fun e => mkFolderElem (fo_path e) (fo_processed e) (Some v)) i
                    (dom_folders (dom s)))) s.

(** [findAllFileRows] (its first method, the [/blob/] links): every row
    that is not yet processed and whose file name is non-empty and has no
    [..] is returned with [sha256: null] and marked processed. *)
Fixpoint find_file_rows (i : nat) (els : list FileElem) : list FileRow * list FileElem :=
  match els with
  | [] => ([], [])
  | e :: els' =>
      let '(rows, els'') := find_file_rows (S i) els' in
      let filename := last_segment (fe_path e) in
      if negb (truthy_str filename) || includes filename ".." || fe_processed e
      then (rows, e :: els'')
      else (mkFileRow filename (Some (fe_path e)) None i :: rows,
            mkFileElem (fe_path e) true (fe_icon e) :: els'')
  end.

(** The rows [findAllFileRows] accepts, and the row object it builds. *)
Definition selectable (e : FileElem) : bool :=
  let filename := last_segment (fe_path e) in
  truthy_str filename && negb (includes filename "..").

Definition row_of (e : FileElem) (i : nat) : FileRow :=
  mkFileRow (last_segment (fe_path e)) (Some (fe_path e)) None i.

Definition findAllFileRows : M (list FileRow) := fun s =>
  let '(rows, els) := find_file_rows 0 (dom_files (dom s)) in
  (Done rows, set_dom (mkDom els (dom_folders (dom s))) s).

Record FolderRow := mkFolderRow { folderPath : string; folder_elem : nat }.

Fixpoint find_folder_rows (i : nat) (els : list FolderElem)
    : list FolderRow * list FolderElem :=
  match els with
  | [] => ([], [])
  | e :: els' =>
      let '(rows, els'') := find_folder_rows (S i) els' in
      if negb (truthy_str (fo_path e)) || fo_processed e
      then (rows, e :: els'')
      else (mkFolderRow (fo_path e) i :: rows,
            mkFolderElem (fo_path e) true (fo_icon e) :: els'')
  end.

Definition findAllFolderRows : M (list FolderRow) := fun s =>
  let '(rows, els) := find_folder_rows 0 (dom_folders (dom s)) in
  (Done rows, set_dom (mkDom (dom_files (dom s)) els) s).

(* ------------------------------------------------------------------ *)
(** ** Server calls *)

(** [checkServerStatus]: [state.connected] records whether [/api/status]
    answered. *)
Definition checkServerStatus (env : Env) : M bool := fun s =>
  (Done (env_status env), set_connected (env_status env) s).

(** [checkFiles]: [null] when not connected or when the batch call
    rejects, [response.results] otherwise. *)
Definition checkFiles (env : Env) : M (option Results) := fun s =>
  if negb (connected s) then (Done None, s) else (Done (env_batch env), s).

(* ------------------------------------------------------------------ *)
(** ** The page pass ([scanCurrentPage]) *)

(** The counter the verdict of one row increments. *)
Definition count_verdict (v : Verdict) (t : Stats) : Stats :=
  match v with
  | Mismatch => mkStats (matches t) (S (mismatches t)) (missing t) (total t)
  | Match => mkStats (S (matches t)) (mismatches t) (missing t) (total t)
  | _ => mkStats (matches t) (mismatches t) (S (missing t)) (total t)
  end.

(** One iteration of [rows.forEach(row => ...)] over the batch results. *)
Definition apply_result (results : Results) (s : State) (r : FileRow) : State :=
  let v := row_verdict results r in
  set_stats (count_verdict v (stats s)) (set_file_icon (row_elem r) v s).

Definition set_total (n : nat) (s : State) : State :=
  let t := stats s in set_stats (mkStats (matches t) (mismatches t) (missing t) n) s.

(** The folder part: fetch the manifest if folders are shown and none is
    cached, then classify every folder row. *)
Definition fetch_repo_for_folders (env : Env) (folders : list FolderRow) : M unit :=
  s ← get;
  match folders, repoData s with
  | _ :: _, None =>
      match getRepoInfoFromUrl (loc_pathname s) with
      | Some _ =>
          match env_repo env with
          | Some rd => modify (set_repoData (Some rd))
          | None => mret tt
          end
      | None => mret tt
      end
  | _, _ => mret tt
  end.

Definition folder_icons (folders : list FolderRow) : M unit :=
  s ← get;
  match repoData s with
  | Some rd =>
      modify (fun s0 => List.fold_left (fun s1 f =>
        set_folder_icon (folder_elem f)
          (fs_status (calculateFolderStatus (folderPath f) (rd_files rd))) s1)
        folders s0)
  | None =>
      modify (fun s0 => List.fold_left (fun s1 f =>
        set_folder_icon (folder_elem f) Unknown s1) folders s0)
  end.

(** The file part: enrichment, batch call, verdicts and counters. *)
Definition check_rows (env : Env) (rows : list FileRow) : M unit :=
  match rows with
  | [] => mret tt
  | _ :: _ =>
      modify (set_total (length rows));;
      s ← get;
      let rows' := List.map (enrich (repoData s)) rows in
      results ← checkFiles env;
      match results with
      | None =>
          modify (fun s0 => List.fold_left (fun s1 r =>
            set_file_icon (row_elem r) Unknown s1) rows' s0)
      | Some res =>
          modify (fun s0 => List.fold_left (apply_result res) rows' s0)
      end
  end.

(** The body of the [try] block of [scanCurrentPage]. *)
Definition scan_body (env : Env) : M unit :=
  modify (set_stats zero_stats);;
  modify clear_icons;;
  modify clear_processed;;
  checkServerStatus env;;
  s ← get;
  if negb (connected s) then early_return else
  rows ← findAllFileRows;
  folders ← findAllFolderRows;
  modify (fun s0 => List.fold_left (fun s1 r =>
    set_file_icon (row_elem r) Loading s1) rows s0);;
  modify (fun s0 => List.fold_left (fun s1 f =>
    set_folder_icon (folder_elem f) Loading s1) folders s0);;
  fetch_repo_for_folders env folders;;
  folder_icons folders;;
  check_rows env rows.

(** The guard: [if (isScanning) return; isScanning = true;]; [None]
    when the call is dropped. No [await] separates the test from the
    assignment, so the two run as one step. *)
Definition scan_enter (s : State) : option State :=
  if isScanning s then None else Some (bump_passes (set_isScanning true s)).

(** [finally { isScanning = false; }]. *)
Definition scan_exit : M unit := modify (set_isScanning false).

Definition scan_with (body : M unit) : M unit := fun s =>
  match scan_enter s with
  | None => (Returned, s)
  | Some s1 => try_finally body scan_exit s1
  end.

Definition scanCurrentPage (env : Env) : M unit := scan_with (scan_body env).

(* ------------------------------------------------------------------ *)
(** ** The manifest prefetch and the debounced mutation callback *)

(** [autoFetchRepoData]: fetch the manifest of the repository of the
    current location unless the cached one already belongs to it. *)
Definition autoFetchRepoData (answer : option RepoData) : M unit :=
  s ← get;
  if negb (connected s) then early_return else
  let fetch :=
    match answer with
    | Some rd =>
        modify (set_repoData (Some rd));;
        modify (set_stats (mkStats (rd_found rd) (rd_mismatch rd) (rd_missing rd)
                                   (rd_total_files rd)))
    | None => mret tt
    end in
  match getRepoInfoFromUrl (loc_pathname s) with
  | None => early_return
  | Some ri =>
      match repoData s with
      | Some rd => if String.eqb (repo_id rd) (ri_repoId ri) then early_return else fetch
      | None => fetch
      end
  end.

(** The answers the server gives during one debounced callback. *)
Record ObsEnv := mkObsEnv {
  obs_repo : option RepoData;
  obs_pass : Env
}.

(** The URL-change branch of the callback. *)
Definition navigation_check (answer : option RepoData) : M unit :=
  s ← get;
  if bool_decide (Some (loc_href s) = lastUrl s) then mret tt else
  modify (set_lastUrl (Some (loc_href s)));;
  match getRepoInfoFromUrl (loc_pathname s), repoData s with
  | Some ri, Some rd =>
      if negb (String.eqb (repo_id rd) (ri_repoId ri)) then
        modify (set_repoData None);;
        call (autoFetchRepoData answer)
      else mret tt
  | _, _ => mret tt
  end.

(** [r.element.querySelector('.hfc-icon')] is non-null. *)
Definition has_icon (s : State) (i : nat) : bool :=
  match dom_files (dom s) !! i with
  | Some e => match fe_icon e with Some _ => true | None => false end
  | None => false
  end.

(** The callback of [setTimeout(..., 500)] in the [MutationObserver]. *)
Definition observer_tick (o : ObsEnv) : M unit :=
  s ← get;
  if connected s && negb (isScanning s) then
    navigation_check (obs_repo o);;
    rows ← findAllFileRows;
    s' ← get;
    let unprocessed := List.filter (fun r => negb (has_icon s' (row_elem r))) rows in
    match unprocessed with
    | [] => mret tt
    | _ :: _ => call (scanCurrentPage (obs_pass o))
    end
  else mret tt.

(* ------------------------------------------------------------------ *)
(** ** The other callers of the pass and of the manifest cache *)

(** [throw] and [try { m } catch (e) { }]. *)
Definition throw {A} (e : string) : M A := fun s => (Thrown e, s).

Definition catch_all (m : M unit) : M unit := fun s =>
  match m s with
  | (Thrown _, s') => (Done tt, s')
  | r => r
  end.

(** [updateFolderIcons]: clear the folder flags, find the folder rows
    again and, when a manifest is cached, give each one the status of
    [calculateFolderStatus]. *)
Definition updateFolderIcons : M unit :=
  modify (map_folders (fun e => mkFolderElem (fo_path e) false (fo_icon e)));;
  folders ← findAllFolderRows;
  s ← get;
  match repoData s with
  | Some rd =>
      modify (fun s0 => List.fold_left (fun s1 f =>
        set_folder_icon (folder_elem f)
          (fs_status (calculateFolderStatus (folderPath f) (rd_files rd))) s1)
        folders s0)
  | None => mret tt
  end.

(** [scanFullRepo], [answer] being the outcome of [/api/check/repo]. The
    alerts, the button and [showRepoModal] leave the state alone. *)
Definition scanFullRepo (answer : option RepoData) : M unit :=
  s ← get;
  if negb (connected s) then early_return else
  match getRepoInfoFromUrl (loc_pathname s) with
  | None => early_return
  | Some _ =>
      match answer with
      | Some rd => modify (set_repoData (Some rd));; call updateFolderIcons
      | None => mret tt
      end
  end.

(** [rescanServer]: [rescan_ok] is the outcome of [/api/rescan],
    [status_ok] the one of the [/api/status] call after it, [env] the
    answers during the page pass it then starts. *)
Definition rescanServer (rescan_ok status_ok : bool) (env : Env) : M unit :=
  s ← get;
  if negb (connected s) then early_return else
  catch_all (
    (if rescan_ok then mret tt else throw "HTTP error");;
    checkServerStatus (mkEnv status_ok None None);;
    modify (set_repoData None);;
    call (scanCurrentPage env)).

(** The page test of [init]: a path with [/tree/] or with at least two
    non-empty segments. *)
Definition isFileBrowser (pathname : string) : bool :=
  let pathParts := List.filter truthy_str (split_slash pathname) in
  let isRepoPage := (2 <=? length pathParts)%nat in
  includes pathname "/tree/" || isRepoPage.

(* ------------------------------------------------------------------ *)
(** ** [escapeHtml] *)

(** [s.replace(/c/g, r)] for a pattern of one character. *)
Fixpoint replace_all (c : ascii) (r : string) (s : string) : string :=
  match s with
  | EmptyString => EmptyString
  | String x s' =>
      if Ascii.eqb x c then r ++ replace_all c r s' else String x (replace_all c r s')
  end.

Definition quote_char : ascii := ascii_of_nat 34.

Definition escapeHtml (str : option string) : string :=
  match str with
  | None => ""
  | Some s =>
      if negb (truthy_str s) then "" else
      replace_all "'" "&#39;"
        (replace_all quote_char "&quot;"
          (replace_all ">" "&gt;"
            (replace_all "<" "&lt;"
              (replace_all "&" "&amp;" s))))
  end.

(* ------------------------------------------------------------------ *)
(** ** Auxiliary definitions of the properties *)

(** The chain of [.replace] calls of [escapeHtml]. *)
Definition escape_steps (s : string) : string :=
  replace_all "'" "&#39;"
    (replace_all quote_char "&quot;"
      (replace_all ">" "&gt;"
        (replace_all "<" "&lt;"
          (replace_all "&" "&amp;" s)))).

(** [escapeHtml] character by character. *)
Definition esc_char (x : ascii) : string :=
  if Ascii.eqb x "&" then "&amp;"
  else if Ascii.eqb x "<" then "&lt;"
  else if Ascii.eqb x ">" then "&gt;"
  else if Ascii.eqb x quote_char then "&quot;"
  else if Ascii.eqb x "'" then "&#39;"
  else String x "".

Fixpoint esc_all (s : string) : string :=
  match s with
  | EmptyString => EmptyString
  | String x s' => esc_char x ++ esc_all s'
  end.

(** Whether [s] contains the character [c]. *)
Fixpoint str_has (c : ascii) (s : string) : bool :=
  match s with
  | EmptyString => false
  | String x s' => Ascii.eqb x c || str_has c s'
  end.

(** The decoding of the five entities [escapeHtml] writes. *)
Fixpoint html_unescape (s : string) : string :=
  match s with
  | String "&" (String "a" (String "m" (String "p" (String ";" t)))) =>
      String "&" (html_unescape t)
  | String "&" (String "l" (String "t" (String ";" t))) => String "<" (html_unescape t)
  | String "&" (String "g" (String "t" (String ";" t))) => String ">" (html_unescape t)
  | String "&" (String "q" (String "u" (String "o" (String "t" (String ";" t))))) =>
      String quote_char (html_unescape t)
  | String "&" (String "#" (String "3" (String "9" (String ";" t)))) =>
      String "'" (html_unescape t)
  | String x t => String x (html_unescape t)
  | EmptyString => EmptyString
  end.

(** [parts] of [getRepoInfoFromUrl]: the non-empty segments of a path. *)
Definition path_parts (pathname : string) : list string :=
  List.filter truthy_str (split_slash pathname).

(** A manifest entry as the data model describes it: a non-empty [path]
    and a [status] among [found], [missing], [mismatch]. *)
Definition wf_entry (e : ManifestEntry) : Prop :=
  truthy (me_path e) = true /\
  (me_status e = "found" \/ me_status e = "missing" \/ me_status e = "mismatch").

(** The entries of a folder as the spec describes them. *)
Definition folder_member (fp : string) (e : ManifestEntry) : bool :=
  String.eqb (or_empty (me_path e)) fp || startsWith (or_empty (me_path e)) (fp ++ "/").

Definition status_is (st : string) (e : ManifestEntry) : bool :=
  String.eqb (me_status e) st.

(** The counters after [rows.forEach] over the batch results. *)
Definition count_rows (results : Results) (rows : list FileRow) (t : Stats) : Stats :=
  fold_left (fun t r => count_verdict (row_verdict results r) t) rows t.

(** The verdict the file part of a pass gives the row object [r]. *)
Definition batch_verdict (env : Env) (rd : option RepoData) (r : FileRow) : Verdict :=
  match env_batch env with
  | None => Unknown
  | Some res => row_verdict res (enrich rd r)
  end.

(** A file row with its icon and processed flag removed. *)
Definition cleared (e : FileElem) : FileElem := mkFileElem (fe_path e) false None.

(** A folder row with its icon and processed flag removed. *)
Definition cleared_folder (e : FolderElem) : FolderElem := mkFolderElem (fo_path e) false None.

(* ------------------------------------------------------------------ *)
(** ** Passes in flight *)

Module SchedulerModel.

(** Where a call of [scanCurrentPage] comes from: the [Rescan This Page]
    button, [rescanServer], the debounced mutation callback (which also
    handles URL changes), and the first scan of [init]. *)
Inductive TriggerSource := RescanButton | ServerRescan | Mutation | InitialLoad.

(** The script's state together with the number of [scanCurrentPage]
    calls that passed the guard and have not reached their [finally]. *)
Record Config := mkConfig { cfg_state : State; in_flight : nat }.

(** The steps of the single JavaScript thread that touch the guard:
    a call of [scanCurrentPage] runs its guard synchronously; a pass in
    flight (or any other handler) changes the state without touching
    [isScanning]; a pass in flight reaches its [finally]. *)
Inductive step : Config -> Config -> Prop :=
| step_trigger (src : TriggerSource) (c : Config) :
    step c (match scan_enter (cfg_state c) with
            | None => c
            | Some s1 => mkConfig s1 (S (in_flight c))
            end)
| step_progress (f : State -> State) (c : Config) :
    (forall s, isScanning (f s) = isScanning s) ->
    step c (mkConfig (f (cfg_state c)) (in_flight c))
| step_finish (c : Config) (n : nat) :
    in_flight c = S n ->
    step c (mkConfig (snd (scan_exit (cfg_state c))) n).

Inductive reachable : Config -> Prop :=
| reach_init (s : State) : isScanning s = false -> reachable (mkConfig s 0)
| reach_step (c c' : Config) : reachable c -> step c c' -> reachable c'.

Definition trigger (c : Config) : Config :=
  match scan_enter (cfg_state c) with
  | None => c
  | Some s1 => mkConfig s1 (S (in_flight c))
  end.

End SchedulerModel.

(* ------------------------------------------------------------------ *)
(** ** Concrete pages and server answers *)

Definition href_of (p : string) : string := "https://huggingface.co" ++ p.

(** A listing with one file row and no folder. *)
Definition page_one_file : State :=
  mkState true None (Some (href_of "/alice/model-a")) zero_stats false
    (mkDom [mkFileElem "model.safetensors" false None] [])
    "/alice/model-a" (href_of "/alice/model-a") 0.

Definition server_down : Env := mkEnv false None None.

(** The cached manifest of [alice/model-a] and the one of [bob/model-b]. *)
Definition manifest_a : RepoData :=
  mkRepoData "alice/model-a" 1 1 0 0
    [mkManifestEntry (Some "vae/diffusion_pytorch_model.safetensors")
       "diffusion_pytorch_model.safetensors" (Some "aaaa") "found"].

Definition manifest_b : RepoData :=
  mkRepoData "bob/model-b" 1 0 1 0
    [mkManifestEntry (Some "vae/diffusion_pytorch_model.safetensors")
       "diffusion_pytorch_model.safetensors" (Some "bbbb") "missing"].

(** After a client-side navigation from [alice/model-a] to the tree of
    [bob/model-b], before the debounced callback has run: the manifest of
    [alice/model-a] is still cached and the page shows the folder [vae]
    of [bob/model-b]. *)
Definition page_after_navigation : State :=
  mkState true (Some manifest_a) (Some (href_of "/alice/model-a")) zero_stats false
    (mkDom [] [mkFolderElem "vae" false None])
    "/bob/model-b/tree/main" (href_of "/bob/model-b/tree/main") 0.

Definition server_up_b : Env := mkEnv true (Some manifest_b) None.

(** A listing where one row was annotated by the previous pass and a new
    row has just been lazily loaded. *)
Definition page_with_new_row : State :=
  mkState true None (Some (href_of "/alice/model-a")) (mkStats 1 0 0 1) false
    (mkDom [mkFileElem "a.safetensors" true (Some Match);
            mkFileElem "b.safetensors" false None] [])
    "/alice/model-a" (href_of "/alice/model-a") 1.

Definition batch_now : Results :=
  {[ "a.safetensors" := mkBatchEntry false false [];
     "b.safetensors" := mkBatchEntry true false ["checkpoints"] ]}.

Definition tick_env : ObsEnv := mkObsEnv None (mkEnv true None (Some batch_now)).

(** The same callback when [/api/status] fails. *)
Definition tick_down : ObsEnv := mkObsEnv None server_down.

(** A tree listing annotated by an earlier pass: the file row and the
    folder row both carry an icon and a processed flag. *)
Definition page_annotated : State :=
  mkState true (Some manifest_a) (Some (href_of "/alice/model-a/tree/main")) (mkStats 1 0 0 1)
    false
    (mkDom [mkFileElem "a.safetensors" true (Some Match)] [mkFolderElem "vae" true (Some Match)])
    "/alice/model-a/tree/main" (href_of "/alice/model-a/tree/main") 1.

(* ================================================================== *)
(** * Properties *)

Lemma toLowerCase_truthy (s : string) :
  truthy_str (toLowerCase s) = truthy_str s.
Proof. destruct s; reflexivity. Qed.

Lemma row_result_hash (results : Results) (r : FileRow) (h : string) (e : BatchEntry) :
  row_sha256 r = Some h -> h <> "" ->
  results !! toLowerCase h = Some e ->
  row_result results r = Some e.
Proof.
  intros Hs Hne Hl. unfold row_result. rewrite Hs. simpl.
  rewrite toLowerCase_truthy. unfold truthy_str.
  destruct (String.eqb_spec h ""); [contradiction|]. simpl. by rewrite Hl.
Qed.

Lemma row_result_no_hash (results : Results) (r : FileRow) :
  truthy (row_sha256 r) = false ->
  row_result results r = results !! toLowerCase (trim (row_filename r)).
Proof.
  intros Hs. unfold row_result, truthy in *.
  rewrite toLowerCase_truthy, Hs. reflexivity.
Qed.

(** C1: a row whose (non-empty) hash is a key of the batch response with
    [found = true, mismatch = false] gets the verdict [match], whatever its
    file name is and whatever the response says about that name. *)
Theorem hash_tier_wins (results : Results) (h : string) (e : BatchEntry)
    (filename : string) (fullPath : option string) (elem : nat) :
  h <> "" ->
  results !! toLowerCase h = Some e ->
  found e = true -> mismatch e = false ->
  row_verdict results (mkFileRow filename fullPath (Some h) elem) = Match.
Proof.
  intros Hne Hl Hf Hm. unfold row_verdict.
  rewrite (row_result_hash _ _ h e); [|done|done|done].
  simpl. by rewrite Hf, Hm.
Qed.

(** C2: a row without hash whose trimmed, lower-cased file name maps to
    [found = true, mismatch = true] gets [mismatch]; in general the entry
    chosen by the lookup maps [found, not mismatch] to [match],
    [found, mismatch] to [mismatch], anything else to [missing], and a
    row none of whose keys is in the response gets [missing]. *)
Theorem verdict_mapping (results : Results) (r : FileRow) :
  (forall e, truthy (row_sha256 r) = false ->
     results !! toLowerCase (trim (row_filename r)) = Some e ->
     found e = true -> mismatch e = true ->
     row_verdict results r = Mismatch) /\
  (forall e, row_result results r = Some e ->
     row_verdict results r =
       if found e then (if mismatch e then Mismatch else Match) else Missing) /\
  ((truthy (row_sha256 r) = true ->
      results !! toLowerCase (or_empty (row_sha256 r)) = None) ->
   results !! toLowerCase (trim (row_filename r)) = None ->
   row_verdict results r = Missing).
Proof.
  split; [|split].
  - intros e Hs Hl Hf Hm. unfold row_verdict.
    rewrite row_result_no_hash by done. rewrite Hl. simpl. by rewrite Hf, Hm.
  - intros e Hr. unfold row_verdict. by rewrite Hr.
  - intros Hh Hn. unfold row_verdict, row_result.
    unfold truthy in Hh. rewrite toLowerCase_truthy.
    destruct (truthy_str (or_empty (row_sha256 r))).
    + rewrite Hh by done. by rewrite Hn.
    + by rewrite Hn.
Qed.

Lemma hash_tier_wins_witness :
  row_verdict {[ "abc" := mkBatchEntry true false ["models"] ]}
    (mkFileRow "other.bin" None (Some "ABC") 0) = Match.
Proof.
  apply (hash_tier_wins _ "ABC" (mkBatchEntry true false ["models"])).
  - discriminate.
  - reflexivity.
  - reflexivity.
  - reflexivity.
Defined.

Lemma enrich_hash_present (rd : option RepoData) (r : FileRow) :
  truthy (row_sha256 r) = true -> enrich rd r = r.
Proof.
  intros H. destruct rd as [rd|]; simpl; [|done]. by rewrite H.
Qed.

(** After one enrichment a second one changes nothing. *)
Lemma enrich_idempotent (rd : option RepoData) (r : FileRow) :
  enrich rd (enrich rd r) = enrich rd r.
Proof.
  destruct (truthy (row_sha256 r)) eqn:Hr.
  - rewrite (enrich_hash_present rd r Hr). by apply enrich_hash_present.
  - destruct rd as [rd|]; [|done]. simpl. rewrite Hr. simpl.
    destruct (List.find (manifest_matches r) (rd_files rd)) as [f|] eqn:Hf.
    + destruct (truthy (me_sha256 f)) eqn:Hs.
      * simpl. by rewrite Hs.
      * simpl. rewrite Hr. simpl. by rewrite Hf, Hs.
    + simpl. rewrite Hr. simpl. by rewrite Hf.
Qed.

(** C6: enrichment leaves a row that already carries a hash unchanged,
    however often it is repeated. *)
Theorem enrich_keeps_hash (rd : option RepoData) (r : FileRow) :
  truthy (row_sha256 r) = true ->
  enrich rd r = r /\ forall n, Nat.iter n (enrich rd) r = r /\
  row_sha256 (Nat.iter n (enrich rd) r) = row_sha256 r.
Proof.
  intros H. split; [by apply enrich_hash_present|].
  intros n. assert (Hi : Nat.iter n (enrich rd) r = r).
  { induction n as [|n IH]; [done|]. simpl. rewrite IH. by apply enrich_hash_present. }
  by rewrite Hi.
Qed.

Lemma enrich_keeps_hash_witness :
  enrich (Some (mkRepoData "owner/repo" 1 1 0 0
           [mkManifestEntry (Some "a.bin") "a.bin" (Some "fff") "found"]))
         (mkFileRow "a.bin" (Some "a.bin") (Some "abc") 0)
  = mkFileRow "a.bin" (Some "a.bin") (Some "abc") 0.
Proof.
  apply (enrich_keeps_hash _ (mkFileRow "a.bin" (Some "a.bin") (Some "abc") 0)).
  reflexivity.
Defined.

Lemma filter_length_full {A} (p : A -> bool) (l : list A) :
  Nat.eqb (length (List.filter p l)) (length l) = forallb p l.
Proof.
  induction l as [|a l IH]; [done|]. simpl.
  pose proof (List.filter_length_le p l) as Hle.
  destruct (p a); simpl.
  - exact IH.
  - apply Nat.eqb_neq. lia.
Qed.

Lemma count_status_sum (l : list ManifestEntry) :
  Forall wf_entry l ->
  count_status "found" l + count_status "missing" l + count_status "mismatch" l = length l.
Proof.
  induction 1 as [|e l [_ Hs] _ IH]; [done|].
  unfold count_status in *. simpl.
  destruct Hs as [Hs|[Hs|Hs]]; rewrite Hs; simpl; lia.
Qed.

Lemma in_folder_member (fp : string) (l : list ManifestEntry) :
  Forall wf_entry l ->
  List.filter (in_folder fp) l = List.filter (folder_member fp) l.
Proof.
  induction 1 as [|e l [Hp _] _ IH]; [done|]. simpl. rewrite IH.
  unfold in_folder, folder_member, entry_path. rewrite Hp, orb_comm.
  reflexivity.
Qed.

(** C3: on well-formed entries the aggregator selects exactly the entries
    whose path is the folder path or starts with it followed by [/], and
    classifies: none [unknown], all found [match], all missing [missing],
    any other mix [partial]. *)
Theorem folder_classification (fp : string) (es : list ManifestEntry) :
  Forall wf_entry es ->
  let sel := List.filter (folder_member fp) es in
  fs_total (calculateFolderStatus fp es) = length sel /\
  fs_status (calculateFolderStatus fp es) =
    match sel with
    | [] => Unknown
    | _ :: _ =>
        if forallb (status_is "found") sel then Match
        else if forallb (status_is "missing") sel then Missing
        else Partial
    end.
Proof.
  intros Hwf sel. unfold calculateFolderStatus.
  rewrite (in_folder_member fp es Hwf). fold sel.
  assert (Hsel : Forall wf_entry sel) by (apply List.Forall_forall; intros x Hx;
    apply List.filter_In in Hx; destruct Hx as [Hx _];
    exact (proj1 (List.Forall_forall _ _) Hwf x Hx)).
  clearbody sel. destruct sel as [|e rest]; [done|].
  set (sel := e :: rest) in *. simpl fs_total.
  split; [done|]. simpl fs_status.
  pose proof (count_status_sum sel Hsel) as Hsum.
  unfold count_status, status_is in *.
  change (S (length rest)) with (length sel).
  rewrite !filter_length_full.
  destruct (forallb (fun f => String.eqb (me_status f) "found") sel) eqn:Hf; [done|].
  destruct (forallb (fun f => String.eqb (me_status f) "missing") sel) eqn:Hm; [done|].
  rewrite <- filter_length_full in Hm.
  apply Nat.eqb_neq in Hm.
  destruct (0 <? length (List.filter (fun f => String.eqb (me_status f) "found") sel))%nat eqn:H1;
    [done|].
  destruct (0 <? length (List.filter (fun f => String.eqb (me_status f) "mismatch") sel))%nat eqn:H2;
    [done|].
  apply Nat.ltb_ge in H1, H2. exfalso.
  apply Hm. lia.
Qed.

Lemma folder_classification_witness :
  fs_status (calculateFolderStatus "unet"
    [mkManifestEntry (Some "unet/a.bin") "a.bin" None "found";
     mkManifestEntry (Some "unet/b.bin") "b.bin" None "missing";
     mkManifestEntry (Some "vae/c.bin") "c.bin" None "found"]) = Partial.
Proof.
  assert (Hwf : Forall wf_entry
    [mkManifestEntry (Some "unet/a.bin") "a.bin" None "found";
     mkManifestEntry (Some "unet/b.bin") "b.bin" None "missing";
     mkManifestEntry (Some "vae/c.bin") "c.bin" None "found"])
    by (repeat constructor; unfold wf_entry; simpl; auto).
  destruct (folder_classification "unet" _ Hwf) as [_ H].
  rewrite H. reflexivity.
Defined.

(** The four cases the spec lists, on a folder [d]. *)
Example folder_cases :
  let e p st := mkManifestEntry (Some p) "x" None st in
  fs_status (calculateFolderStatus "d" [e "d/a" "found"; e "d/b" "found"]) = Match /\
  fs_status (calculateFolderStatus "d" [e "d/a" "missing"; e "d/b" "missing"]) = Missing /\
  fs_status (calculateFolderStatus "d" [e "d/a" "found"; e "d/b" "missing"]) = Partial /\
  fs_status (calculateFolderStatus "d" [e "dx/a" "found"]) = Unknown.
Proof. repeat split; reflexivity. Qed.

(** The [finally] block runs whatever way the body ends. *)
Lemma try_finally_exit {A} (m : M A) (s : State) :
  isScanning (snd (try_finally m scan_exit s)) = false.
Proof.
  unfold try_finally. destruct (m s) as [o s1]. reflexivity.
Qed.

(** C10: a call that passes the guard and sets [isScanning] leaves it
    cleared, whether the body completes, returns early or throws; this
    holds for any body, and so for the body of [scanCurrentPage]. *)
Theorem scanning_flag_released (body : M unit) (s : State) :
  isScanning s = false ->
  isScanning (snd (scan_with body s)) = false /\
  (forall e, fst (body (bump_passes (set_isScanning true s))) = Thrown e ->
     fst (scan_with body s) = Thrown e) /\
  (fst (body (bump_passes (set_isScanning true s))) = Returned ->
     fst (scan_with body s) = Returned).
Proof.
  intros H. unfold scan_with, scan_enter. rewrite H.
  split; [apply try_finally_exit|].
  unfold try_finally.
  destruct (body (bump_passes (set_isScanning true s))) as [o s1]. simpl.
  split; intros; by subst.
Qed.

Lemma scanning_flag_released_witness :
  isScanning (snd (scan_with (fun s => (Thrown "TypeError", s))
    (mkState true None None zero_stats false (mkDom [] []) "/o/r" "https://huggingface.co/o/r" 0)))
  = false.
Proof.
  apply (scanning_flag_released (fun s => (Thrown "TypeError", s))
    (mkState true None None zero_stats false (mkDom [] []) "/o/r" "https://huggingface.co/o/r" 0)).
  reflexivity.
Defined.

Lemma scanCurrentPage_releases (env : Env) (s : State) :
  isScanning s = false -> isScanning (snd (scanCurrentPage env s)) = false.
Proof.
  intros H. unfold scanCurrentPage, scan_with, scan_enter. rewrite H.
  apply try_finally_exit.
Qed.

(* ------------------------------------------------------------------ *)
(** ** Passes in flight *)

Module Scheduler.
Import SchedulerModel.

Lemma reachable_inv (c : Config) :
  reachable c ->
  (in_flight c = 0 /\ isScanning (cfg_state c) = false) \/
  (in_flight c = 1 /\ isScanning (cfg_state c) = true).
Proof.
  induction 1 as [s Hs|c c' _ IH Hst]; [by left|].
  destruct Hst as [src c|f c Hf|c n Hn]; simpl in *.
  - unfold scan_enter. destruct IH as [[H1 H2]|[H1 H2]]; rewrite H2.
    + right. simpl. by rewrite H1.
    + right. done.
  - by rewrite Hf.
  - destruct IH as [[H1 H2]|[H1 H2]]; [lia|]. left. split; [lia|done].
Qed.

(** C5: in every reachable configuration at most one pass is in flight and
    [isScanning] says whether one is; a trigger while a pass is in flight
    changes nothing (it is dropped, no request is queued); two triggers in
    a row from an idle configuration leave exactly one pass in flight. *)
Theorem single_pass_in_flight (c : Config) :
  reachable c ->
  in_flight c <= 1 /\
  (isScanning (cfg_state c) = true <-> in_flight c = 1) /\
  (isScanning (cfg_state c) = true -> trigger c = c) /\
  (isScanning (cfg_state c) = false ->
     in_flight (trigger (trigger c)) = 1 /\ reachable (trigger (trigger c))).
Proof.
  intros Hr. pose proof (reachable_inv c Hr) as Hi.
  split; [destruct Hi as [[H _]|[H _]]; lia|].
  split; [destruct Hi as [[H1 H2]|[H1 H2]]; rewrite H2; split; intros; done || lia|].
  split.
  - intros H. unfold trigger, scan_enter. by rewrite H.
  - intros H. assert (Hc0 : in_flight c = 0) by (destruct Hi as [[]|[? H']]; congruence).
    split.
    + unfold trigger at 2, scan_enter. rewrite H. simpl.
      unfold trigger, scan_enter. simpl. by rewrite Hc0.
    + eapply reach_step; [eapply reach_step; [exact Hr|]|].
      * apply (step_trigger RescanButton).
      * apply (step_trigger RescanButton).
Qed.

Lemma single_pass_in_flight_witness :
  in_flight (trigger (trigger (mkConfig
    (mkState true None None zero_stats false (mkDom [] []) "/o/r" "https://huggingface.co/o/r" 0) 0)))
  = 1.
Proof.
  apply (single_pass_in_flight (mkConfig
    (mkState true None None zero_stats false (mkDom [] []) "/o/r" "https://huggingface.co/o/r" 0) 0)).
  - apply reach_init. reflexivity.
  - reflexivity.
Defined.

End Scheduler.

(* ------------------------------------------------------------------ *)
(** ** Concrete runs of the page pass *)

(** C7 fails: with [/api/status] failing, the pass leaves the file row
    with no icon at all, not with an [unknown] one. *)
Lemma connectivity_failure_no_unknown :
  connected (snd (scanCurrentPage server_down page_one_file)) = false /\
  dom_files (dom (snd (scanCurrentPage server_down page_one_file)))
    = [mkFileElem "model.safetensors" false None] /\
  ~ (forall e, e ∈ dom_files (dom (snd (scanCurrentPage server_down page_one_file))) ->
       fe_icon e = Some Unknown).
Proof.
  split; [reflexivity|]. split; [reflexivity|].
  intros H. specialize (H (mkFileElem "model.safetensors" false None)).
  assert (Hin : mkFileElem "model.safetensors" false None ∈
    dom_files (dom (snd (scanCurrentPage server_down page_one_file))))
    by (vm_compute; left).
  specialize (H Hin). discriminate H.
Qed.

(** C9: a pass started then (by the [Rescan This Page] button) classifies
    the folder [vae] of [bob/model-b] with the entries of [alice/model-a]:
    [match], where the manifest of [bob/model-b] gives [missing]. *)
Theorem stale_manifest_used_after_repo_change :
  option_map ri_repoId (getRepoInfoFromUrl (loc_pathname page_after_navigation))
    = Some "bob/model-b" /\
  repoData (snd (scanCurrentPage server_up_b page_after_navigation)) = Some manifest_a /\
  dom_folders (dom (snd (scanCurrentPage server_up_b page_after_navigation)))
    = [mkFolderElem "vae" true (Some Match)] /\
  fs_status (calculateFolderStatus "vae" (rd_files manifest_b)) = Missing.
Proof. vm_compute. repeat split. Qed.

(** C8 fails: the pass the new row triggers also re-evaluates the row that
    already had a verdict (its icon changes from [match] to [missing]) and
    counts it again ([total = 2]). *)
Lemma mutation_pass_touches_annotated_rows :
  passes (snd (observer_tick tick_env page_with_new_row)) = 2 /\
  dom_files (dom (snd (observer_tick tick_env page_with_new_row))) =
    [mkFileElem "a.safetensors" true (Some Missing);
     mkFileElem "b.safetensors" true (Some Match)] /\
  stats (snd (observer_tick tick_env page_with_new_row)) = mkStats 1 0 1 2.
Proof. vm_compute. repeat split. Qed.

(* ------------------------------------------------------------------ *)
(** ** The connected pass, in general *)

Lemma find_skip_cond (e : FileElem) :
  negb (truthy_str (last_segment (fe_path e))) ||
  includes (last_segment (fe_path e)) ".." || fe_processed e
  = negb (selectable e && negb (fe_processed e)).
Proof.
  unfold selectable.
  destruct (truthy_str _), (includes _ _), (fe_processed e); reflexivity.
Qed.

Lemma find_file_rows_spec (i : nat) (els : list FileElem) :
  snd (find_file_rows i els) =
    List.map (fun e => if selectable e && negb (fe_processed e)
                       then mkFileElem (fe_path e) true (fe_icon e) else e) els /\
  (forall r, In r (fst (find_file_rows i els)) <->
     exists k e, els !! k = Some e /\ selectable e && negb (fe_processed e) = true /\
                 r = row_of e (i + k)) /\
  NoDup (List.map row_elem (fst (find_file_rows i els))) /\
  Forall (fun r => i <= row_elem r) (fst (find_file_rows i els)).
Proof.
  revert i. induction els as [|e els IH]; intros i.
  - simpl. split; [done|]. split; [|split; constructor].
    intros r. split; [done|]. intros (k & e & Hk & _). done.
  - simpl. destruct (find_file_rows (S i) els) as [rows els''] eqn:Hf.
    destruct (IH (S i)) as (Hs & Hin & Hnd & Hge). rewrite Hf in Hs, Hin, Hnd, Hge.
    simpl in Hs, Hin, Hnd, Hge.
    rewrite find_skip_cond.
    destruct (selectable e && negb (fe_processed e)) eqn:Hsel; simpl.
    + split; [by rewrite Hs|]. split; [|split].
      * intros r. split.
        -- intros [<-|Hr].
           ++ exists 0, e. split; [done|]. split; [done|]. unfold row_of. by rewrite Nat.add_0_r.
           ++ apply Hin in Hr. destruct Hr as (k & e' & Hk & Hs' & ->).
              exists (S k), e'. split; [done|]. split; [done|]. f_equal. lia.
        -- intros (k & e' & Hk & Hs' & ->). destruct k as [|k].
           ++ left. simpl in Hk. injection Hk as <-. unfold row_of. by rewrite Nat.add_0_r.
           ++ right. apply Hin. exists k, e'. split; [done|]. split; [done|]. f_equal. lia.
      * constructor; [|done]. simpl. intros Hin'.
        apply list_elem_of_In, List.in_map_iff in Hin'. destruct Hin' as (r & Hr & Hr').
        rewrite List.Forall_forall in Hge. specialize (Hge r Hr'). lia.
      * constructor; [simpl; lia|].
        eapply List.Forall_impl; [|exact Hge]. intros r Hr. simpl in Hr. lia.
    + split; [by rewrite Hs|]. split; [|split].
      * intros r. rewrite Hin. split.
        -- intros (k & e' & Hk & Hs' & ->). exists (S k), e'.
           split; [done|]. split; [done|]. f_equal. lia.
        -- intros (k & e' & Hk & Hs' & ->). destruct k as [|k].
           ++ simpl in Hk. injection Hk as <-. congruence.
           ++ exists k, e'. split; [done|]. split; [done|]. f_equal. lia.
      * done.
      * eapply List.Forall_impl; [|exact Hge]. intros r Hr. simpl in Hr. lia.
Qed.

Lemma fold_preserves {A B} (proj : State -> B) (f : State -> A -> State) (l : list A) (s : State) :
  (forall s1 a, proj (f s1 a) = proj s1) -> proj (fold_left f l s) = proj s.
Proof.
  intros Hf. revert s. induction l as [|a l IH]; intros s; [done|].
  simpl. rewrite IH. apply Hf.
Qed.

Lemma fold_icons (f : State -> FileRow -> State) (g : FileRow -> Verdict)
    (rows : list FileRow) (s : State) :
  (forall s1 r, dom_files (dom (f s1 r)) =
                alter (set_icon (g r)) (row_elem r) (dom_files (dom s1))) ->
  NoDup (List.map row_elem rows) ->
  forall j, dom_files (dom (fold_left f rows s)) !! j =
    match List.find (fun r => Nat.eqb (row_elem r) j) rows with
    | Some r => set_icon (g r) <$> dom_files (dom s) !! j
    | None => dom_files (dom s) !! j
    end.
Proof.
  intros Hf. revert s. induction rows as [|r rows IH]; intros s Hnd j; [done|].
  simpl in Hnd. apply NoDup_cons in Hnd as [Hnot Hnd].
  simpl. rewrite (IH _ Hnd j), Hf.
  destruct (Nat.eqb_spec (row_elem r) j) as [<-|Hne].
  - destruct (List.find (fun r0 => Nat.eqb (row_elem r0) (row_elem r)) rows) as [r'|] eqn:Hfd.
    + exfalso. apply List.find_some in Hfd as [Hin Heq].
      apply Nat.eqb_eq in Heq. apply Hnot. apply list_elem_of_In.
      apply List.in_map_iff. by exists r'.
    + apply list_lookup_alter_eq.
  - destruct (List.find _ rows); rewrite list_lookup_alter_ne by done; reflexivity.
Qed.

Lemma count_rows_sum (results : Results) (rows : list FileRow) (t : Stats) :
  total (count_rows results rows t) = total t /\
  matches (count_rows results rows t) + mismatches (count_rows results rows t)
    + missing (count_rows results rows t)
  = matches t + mismatches t + missing t + length rows.
Proof.
  revert t. induction rows as [|r rows IH]; intros t; simpl; [lia|].
  destruct (IH (count_verdict (row_verdict results r) t)) as [H1 H2].
  unfold count_rows in *. rewrite H1, H2.
  destruct (row_verdict results r); simpl; lia.
Qed.

Lemma fold_apply_result_stats (results : Results) (rows : list FileRow) (s : State) :
  stats (fold_left (apply_result results) rows s) = count_rows results rows (stats s).
Proof.
  revert s. induction rows as [|r rows IH]; intros s; [done|].
  simpl. rewrite IH. reflexivity.
Qed.

Lemma bind_modify {B} (f : State -> State) (k : unit -> M B) (s : State) :
  (modify f ≫= k) s = k tt (f s).
Proof. reflexivity. Qed.

Lemma bind_get {B} (k : State -> M B) (s : State) : (get ≫= k) s = k s s.
Proof. reflexivity. Qed.

Lemma bind_done {A B} (m : M A) (k : A -> M B) (s : State) (a : A) (s' : State) :
  m s = (Done a, s') -> (m ≫= k) s = k a s'.
Proof. intros H. unfold mbind, M_bind. by rewrite H. Qed.

Lemma findAllFileRows_eq (s : State) : findAllFileRows s =
  (Done (fst (find_file_rows 0 (dom_files (dom s)))),
   set_dom (mkDom (snd (find_file_rows 0 (dom_files (dom s)))) (dom_folders (dom s))) s).
Proof. unfold findAllFileRows. by destruct (find_file_rows 0 _). Qed.

Lemma findAllFolderRows_eq (s : State) : findAllFolderRows s =
  (Done (fst (find_folder_rows 0 (dom_folders (dom s)))),
   set_dom (mkDom (dom_files (dom s)) (snd (find_folder_rows 0 (dom_folders (dom s))))) s).
Proof. unfold findAllFolderRows. by destruct (find_folder_rows 0 _). Qed.

(** The folder part of a pass touches neither the file rows nor the
    counters nor the connection flag. *)
Lemma fetch_repo_frame (env : Env) (folders : list FolderRow) (s : State) :
  exists s', fetch_repo_for_folders env folders s = (Done tt, s') /\
    dom s' = dom s /\ stats s' = stats s /\ connected s' = connected s /\
    passes s' = passes s.
Proof.
  unfold fetch_repo_for_folders. rewrite bind_get.
  destruct folders, (repoData s); try (eexists; split; [reflexivity|done]).
  destruct (getRepoInfoFromUrl _); [|eexists; split; [reflexivity|done]].
  destruct (env_repo env); eexists; split; reflexivity || done.
Qed.

Lemma folder_icons_frame (folders : list FolderRow) (s : State) :
  exists s', folder_icons folders s = (Done tt, s') /\
    dom_files (dom s') = dom_files (dom s) /\ stats s' = stats s /\
    connected s' = connected s /\ repoData s' = repoData s /\ passes s' = passes s.
Proof.
  unfold folder_icons. rewrite bind_get.
  destruct (repoData s) eqn:Hr; (eexists; split; [reflexivity|]);
    (split; [apply (fold_preserves (fun s => dom_files (dom s))); reflexivity|]);
    (split; [apply (fold_preserves stats); reflexivity|]);
    (split; [apply (fold_preserves connected); reflexivity|]);
    (split; [rewrite <- Hr; apply (fold_preserves repoData); reflexivity|]);
    apply (fold_preserves passes); reflexivity.
Qed.

Lemma find_file_rows_length (i : nat) (els : list FileElem) :
  length (fst (find_file_rows i els)) =
  length (List.filter (fun e => selectable e && negb (fe_processed e)) els).
Proof.
  revert i. induction els as [|e els IH]; intros i; [done|]. simpl.
  specialize (IH (S i)). destruct (find_file_rows (S i) els) as [rows els''].
  simpl in IH. rewrite find_skip_cond.
  destruct (selectable e && negb (fe_processed e)); simpl; lia.
Qed.

Lemma find_row_at (els : list FileElem) (j : nat) :
  Forall (fun e => fe_processed e = false) els ->
  List.find (fun r => Nat.eqb (row_elem r) j) (fst (find_file_rows 0 els)) =
    match els !! j with
    | Some e => if selectable e then Some (row_of e j) else None
    | None => None
    end.
Proof.
  intros Hp. destruct (find_file_rows_spec 0 els) as (_ & Hin & _ & _).
  destruct (List.find _ _) as [r|] eqn:Hf.
  - apply List.find_some in Hf as [Hr Hj]. apply Nat.eqb_eq in Hj.
    apply Hin in Hr. destruct Hr as (k & e & Hk & Hs & ->). simpl in Hj. subst j.
    rewrite Hk. apply andb_prop in Hs as [Hs _]. by rewrite Hs.
  - destruct (els !! j) as [e|] eqn:Hj; [|done].
    destruct (selectable e) eqn:Hs; [|done]. exfalso.
    assert (Hr : In (row_of e j) (fst (find_file_rows 0 els))).
    { apply Hin. exists j, e. split; [done|]. split; [|done].
      rewrite Hs. rewrite List.Forall_forall in Hp.
      rewrite (Hp e); [done|]. apply list_elem_of_In. by eapply list_elem_of_lookup_2. }
    pose proof (List.find_none _ _ Hf _ Hr) as H. simpl in H.
    by rewrite Nat.eqb_refl in H.
Qed.

Lemma enrich_elem (rd : option RepoData) (r : FileRow) :
  row_elem (enrich rd r) = row_elem r.
Proof.
  unfold enrich. destruct rd; [|done]. destruct (negb _); [|done].
  destruct (List.find _ _); [|done]. by destruct (truthy _).
Qed.

Lemma find_map_enrich (rd : option RepoData) (rows : list FileRow) (j : nat) :
  List.find (fun r => Nat.eqb (row_elem r) j) (List.map (enrich rd) rows) =
  option_map (enrich rd) (List.find (fun r => Nat.eqb (row_elem r) j) rows).
Proof.
  induction rows as [|r rows IH]; [done|]. simpl. rewrite enrich_elem.
  by destruct (Nat.eqb _ _).
Qed.

Lemma map_elem_enrich (rd : option RepoData) (rows : list FileRow) :
  List.map row_elem (List.map (enrich rd) rows) = List.map row_elem rows.
Proof.
  rewrite List.map_map. apply List.map_ext. apply enrich_elem.
Qed.

Lemma check_rows_spec (env : Env) (rows : list FileRow) (s : State) :
  connected s = true -> NoDup (List.map row_elem rows) ->
  exists s', check_rows env rows s = (Done tt, s') /\
    connected s' = true /\ repoData s' = repoData s /\ passes s' = passes s /\
    (forall j, dom_files (dom s') !! j =
       match List.find (fun r => Nat.eqb (row_elem r) j) rows with
       | Some r => set_icon (batch_verdict env (repoData s) r) <$> dom_files (dom s) !! j
       | None => dom_files (dom s) !! j
       end) /\
    (rows = [] -> stats s' = stats s) /\
    (rows <> [] -> total (stats s') = length rows) /\
    (env_batch env = None ->
       matches (stats s') = matches (stats s) /\ mismatches (stats s') = mismatches (stats s) /\
       missing (stats s') = missing (stats s)) /\
    (forall res, env_batch env = Some res ->
       matches (stats s') + mismatches (stats s') + missing (stats s') =
       matches (stats s) + mismatches (stats s) + missing (stats s) + length rows).
Proof.
  intros Hc Hnd. destruct rows as [|r0 rows0] eqn:Hrows.
  - exists s. split; [done|]. do 4 (split; [done|]).
    split; [done|]. split; [done|].
    split; [done|]. intros res _. simpl. lia.
  - rewrite <- Hrows in *. unfold check_rows. rewrite Hrows, <- Hrows.
    rewrite bind_modify, bind_get.
    set (s1 := set_total (length rows) s).
    assert (Hc1 : connected s1 = true) by exact Hc.
    rewrite (bind_done (checkFiles env) _ s1 (env_batch env) s1)
      by (unfold checkFiles; by rewrite Hc1).
    assert (Hnd' : NoDup (List.map row_elem (List.map (enrich (repoData s1)) rows)))
      by (by rewrite map_elem_enrich).
    destruct (env_batch env) as [res|] eqn:Hb.
    + eexists. split; [reflexivity|].
      split; [rewrite (fold_preserves connected); [exact Hc1|reflexivity]|].
      split; [rewrite (fold_preserves repoData); reflexivity|].
      split; [rewrite (fold_preserves passes); reflexivity|].
      split.
      { intros j.
        rewrite (fold_icons (apply_result res) (row_verdict res) _ _ (fun _ _ => eq_refl) Hnd' j).
        rewrite find_map_enrich.
        destruct (List.find _ rows) as [r|]; simpl; [|done].
        unfold batch_verdict. by rewrite Hb. }
      split; [intros; by subst|].
      split.
      { intros _. rewrite fold_apply_result_stats.
        destruct (count_rows_sum res (List.map (enrich (repoData s1)) rows) (stats s1)) as [H _].
        by rewrite H. }
      split; [done|].
      intros res' Hres. injection Hres as <-. rewrite fold_apply_result_stats.
      destruct (count_rows_sum res (List.map (enrich (repoData s1)) rows) (stats s1)) as [_ H].
      rewrite H, List.length_map. reflexivity.
    + eexists. split; [reflexivity|].
      split; [rewrite (fold_preserves connected); [exact Hc1|reflexivity]|].
      split; [rewrite (fold_preserves repoData); reflexivity|].
      split; [rewrite (fold_preserves passes); reflexivity|].
      split.
      { intros j.
        rewrite (fold_icons (fun s1 r => set_file_icon (row_elem r) Unknown s1)
                  (fun _ => Unknown) _ _ (fun _ _ => eq_refl) Hnd' j).
        rewrite find_map_enrich.
        destruct (List.find _ rows) as [r|]; simpl; [|done].
        unfold batch_verdict. by rewrite Hb. }
      split; [intros; by subst|].
      split.
      { intros _. rewrite (fold_preserves stats); [done|]. reflexivity. }
      split; [|done].
      intros _. rewrite (fold_preserves stats); [done|]. reflexivity.
Qed.

(** A pass that gets past the guard and finds the server answering: every
    file row the pass selects ends with the icon of its verdict, every
    other row with none; [total] counts the selected rows. *)
Lemma scan_connected (env : Env) (s : State) :
  isScanning s = false -> env_status env = true ->
  let s' := snd (scanCurrentPage env s) in
  connected s' = true /\ isScanning s' = false /\ passes s' = S (passes s) /\
  (forall j e, dom_files (dom s) !! j = Some e ->
     dom_files (dom s') !! j =
       Some (mkFileElem (fe_path e) (selectable e)
               (if selectable e then Some (batch_verdict env (repoData s') (row_of e j))
                else None))) /\
  total (stats s') = length (List.filter selectable (dom_files (dom s))) /\
  (env_batch env = None ->
     matches (stats s') = 0 /\ mismatches (stats s') = 0 /\ missing (stats s') = 0) /\
  (forall res, env_batch env = Some res ->
     matches (stats s') + mismatches (stats s') + missing (stats s') = total (stats s')).
Proof.
  intros H1 H2 s'. unfold s', scanCurrentPage, scan_with, scan_enter. rewrite H1.
  unfold try_finally, scan_body. rewrite !bind_modify.
  rewrite (bind_done (checkServerStatus env) _ _ (env_status env)
             (set_connected (env_status env) _) eq_refl).
  rewrite bind_get, H2. cbn [set_connected connected negb].
  set (sA := set_connected true (clear_processed (clear_icons
                (set_stats zero_stats (bump_passes (set_isScanning true s)))))).
  assert (HA : dom_files (dom sA) = List.map cleared (dom_files (dom s))).
  { unfold sA. cbn. rewrite List.map_map. reflexivity. }
  assert (HAp : Forall (fun e => fe_processed e = false) (dom_files (dom sA))).
  { rewrite HA. apply List.Forall_forall. intros x Hx.
    apply List.in_map_iff in Hx as (y & <- & _). reflexivity. }
  rewrite (bind_done findAllFileRows _ sA _ _ (findAllFileRows_eq sA)).
  set (rows := fst (find_file_rows 0 (dom_files (dom sA)))).
  destruct (find_file_rows_spec 0 (dom_files (dom sA))) as (Hsnd & _ & Hnd & _).
  fold rows in Hnd.
  match goal with |- context [(findAllFolderRows ≫= _) ?x] => set (sB := x) end.
  rewrite (bind_done findAllFolderRows _ sB _ _ (findAllFolderRows_eq sB)).
  match goal with |- context [fetch_repo_for_folders env ?fo] => set (folders := fo) end.
  rewrite !bind_modify.
  match goal with |- context [(fetch_repo_for_folders env folders ≫= _) ?x] => set (sE := x) end.
  destruct (fetch_repo_frame env folders sE) as (sF & HF & HFd & HFs & HFc & HFp).
  rewrite (bind_done _ _ sE _ _ HF).
  destruct (folder_icons_frame folders sF) as (sG & HG & HGd & HGs & HGc & HGr & HGp).
  rewrite (bind_done _ _ sF _ _ HG).
  assert (HEc : connected sE = true).
  { unfold sE. rewrite (fold_preserves connected); [|reflexivity].
    rewrite (fold_preserves connected); reflexivity. }
  destruct (check_rows_spec env rows sG) as (sH & HH & HHc & HHr & HHp & HHd & HHe & HHn & HHnone & HHsome);
    [congruence|exact Hnd|].
  rewrite HH. cbn [scan_exit modify snd].
  assert (HEs : stats sE = zero_stats).
  { unfold sE. rewrite (fold_preserves stats); [|reflexivity].
    rewrite (fold_preserves stats); reflexivity. }
  assert (HEp : passes sE = S (passes s)).
  { unfold sE. rewrite (fold_preserves passes); [|reflexivity].
    rewrite (fold_preserves passes); reflexivity. }
  assert (HBf : dom_files (dom sB) = snd (find_file_rows 0 (dom_files (dom sA)))) by reflexivity.
  assert (HEf : forall j, dom_files (dom sE) !! j =
    match List.find (fun r => Nat.eqb (row_elem r) j) rows with
    | Some r => set_icon Loading <$> dom_files (dom sB) !! j
    | None => dom_files (dom sB) !! j
    end).
  { intros j. unfold sE.
    rewrite (fold_preserves (fun s => dom_files (dom s))); [|reflexivity].
    rewrite (fold_icons (fun s1 r => set_file_icon (row_elem r) Loading s1)
               (fun _ => Loading) _ _ (fun _ _ => eq_refl) Hnd j).
    reflexivity. }
  assert (Hlen : length rows = length (List.filter selectable (dom_files (dom s)))).
  { unfold rows. rewrite find_file_rows_length, HA.
    clear. induction (dom_files (dom s)) as [|e l IH]; [done|].
    cbn [List.map List.filter].
    change (selectable (cleared e)) with (selectable e).
    change (fe_processed (cleared e)) with false. rewrite andb_true_r.
    destruct (selectable e); cbn [length]; lia. }
  assert (HGst : stats sG = zero_stats) by congruence.
  split; [exact HHc|]. split; [reflexivity|]. split; [simpl; congruence|].
  split.
  { intros j e Hj. simpl. rewrite HHr, HHd, HGd, HFd, HEf, HGr.
    unfold rows. rewrite find_row_at by exact HAp.
    rewrite HBf, Hsnd, HA, !list_lookup_fmap, Hj. simpl.
    unfold cleared, selectable, row_of. simpl.
    destruct (truthy_str _ && negb (includes _ _)); reflexivity. }
  split.
  { simpl. destruct rows as [|r rows'] eqn:Hr.
    - rewrite HHe by done. rewrite HGst. simpl. simpl in Hlen. exact Hlen.
    - rewrite HHn by done. exact Hlen. }
  split.
  { intros Hb. simpl. destruct (HHnone Hb) as (Ha & Hb' & Hc).
    rewrite Ha, Hb', Hc, HGst. done. }
  intros res Hres. simpl. rewrite (HHsome res Hres), HGst. simpl.
  destruct rows as [|r rows'] eqn:Hr.
  - rewrite HHe by done. rewrite HGst. reflexivity.
  - rewrite HHn by done. reflexivity.
Qed.

(** C4: when [/api/status] answers but the batch call rejects, every file
    row of the pass ends with the icon [unknown] (never [missing]) and no
    [matches]/[mismatches]/[missing] counter is incremented. *)
Theorem lookup_failure_unknown (env : Env) (s : State) :
  isScanning s = false -> env_status env = true -> env_batch env = None ->
  let s' := snd (scanCurrentPage env s) in
  (forall j e, dom_files (dom s) !! j = Some e -> selectable e = true ->
     dom_files (dom s') !! j = Some (mkFileElem (fe_path e) true (Some Unknown))) /\
  matches (stats s') = 0 /\ mismatches (stats s') = 0 /\ missing (stats s') = 0.
Proof.
  intros H1 H2 H3 s'.
  destruct (scan_connected env s H1 H2) as (_ & _ & _ & Hf & _ & Hn & _).
  fold s' in Hf, Hn. split; [|exact (Hn H3)].
  intros j e Hj Hs. rewrite (Hf j e Hj), Hs. unfold batch_verdict. by rewrite H3.
Qed.

Lemma lookup_failure_unknown_witness :
  dom_files (dom (snd (scanCurrentPage (mkEnv true None None) page_one_file)))
    !! 0 = Some (mkFileElem "model.safetensors" true (Some Unknown)).
Proof.
  destruct (lookup_failure_unknown (mkEnv true None None) page_one_file
              eq_refl eq_refl eq_refl) as [H _].
  apply (H 0 (mkFileElem "model.safetensors" false None)); reflexivity.
Defined.

Lemma autoFetch_frame (answer : option RepoData) (s : State) :
  (forall e, fst (autoFetchRepoData answer s) <> Thrown e) /\
  dom (snd (autoFetchRepoData answer s)) = dom s /\
  passes (snd (autoFetchRepoData answer s)) = passes s /\
  isScanning (snd (autoFetchRepoData answer s)) = isScanning s.
Proof.
  unfold autoFetchRepoData. rewrite bind_get.
  destruct (negb (connected s)); [done|].
  destruct (getRepoInfoFromUrl _) as [ri|]; [|done].
  destruct (repoData s) as [rd|];
    [destruct (String.eqb (repo_id rd) (ri_repoId ri)); [done|]|];
    destruct answer; done.
Qed.

Lemma navigation_frame (answer : option RepoData) (s : State) :
  exists s1, navigation_check answer s = (Done tt, s1) /\
    dom s1 = dom s /\ passes s1 = passes s /\ isScanning s1 = isScanning s.
Proof.
  unfold navigation_check. rewrite bind_get.
  destruct (bool_decide _); [by eexists|].
  rewrite bind_modify.
  set (s0 := set_lastUrl (Some (loc_href s)) s).
  change (getRepoInfoFromUrl (loc_pathname s)) with (getRepoInfoFromUrl (loc_pathname s0)).
  change (repoData s) with (repoData s0).
  destruct (getRepoInfoFromUrl _) as [ri|]; [|by eexists].
  destruct (repoData s0) as [rd|]; [|by eexists].
  destruct (negb _); [|by eexists].
  rewrite bind_modify. unfold call.
  set (s1 := set_repoData None s0).
  destruct (autoFetch_frame answer s1) as (Hnt & Hd & Hp & Hi).
  destruct (autoFetchRepoData answer s1) as [o s2]; simpl in *.
  destruct o as [[]| |e].
  - exists s2. split; [done|]. rewrite Hd, Hp, Hi. done.
  - exists s2. split; [done|]. rewrite Hd, Hp, Hi. done.
  - exfalso. by eapply Hnt.
Qed.

Lemma call_snd (m : M unit) (s : State) : snd (call m s) = snd (m s).
Proof. unfold call. destruct (m s) as [[] s']; reflexivity. Qed.

Lemma lookup_List_map {A B} (f : A -> B) (l : list A) (i : nat) :
  List.map f l !! i = option_map f (l !! i).
Proof. revert i; induction l as [|x l IH]; intros [|i]; simpl; auto. Qed.

Lemma filter_selectable_mark (l : list FileElem) :
  length (List.filter selectable
    (List.map (fun e => if selectable e && negb (fe_processed e)
                        then mkFileElem (fe_path e) true (fe_icon e) else e) l))
  = length (List.filter selectable l).
Proof.
  induction l as [|e l IH]; [done|]. cbn [List.map List.filter].
  destruct (selectable e && negb (fe_processed e)) eqn:Hs.
  - change (selectable (mkFileElem (fe_path e) true (fe_icon e))) with (selectable e).
    destruct (selectable e); cbn [length]; lia.
  - destruct (selectable e); cbn [length]; lia.
Qed.

(** A pass that gets past the guard and finds [/api/status] failing. *)
Lemma scan_offline (env : Env) (s : State) :
  isScanning s = false -> env_status env = false ->
  let s' := snd (scanCurrentPage env s) in
  fst (scanCurrentPage env s) = Returned /\
  connected s' = false /\ isScanning s' = false /\ stats s' = zero_stats /\
  dom_files (dom s') = List.map cleared (dom_files (dom s)) /\
  dom_folders (dom s') = List.map cleared_folder (dom_folders (dom s)).
Proof.
  intros H1 H2 s'. unfold s', scanCurrentPage, scan_with, scan_enter. rewrite H1.
  unfold try_finally, scan_body. rewrite !bind_modify.
  rewrite (bind_done (checkServerStatus env) _ _ (env_status env)
             (set_connected (env_status env) _) eq_refl).
  rewrite bind_get, H2. cbn.
  rewrite !List.map_map.
  split; [done|]. split; [done|]. split; [done|]. split; [done|]. split; done.
Qed.

(** C7, as the code does it: when the connectivity check fails, the pass
    resets the counters, removes every icon and every processed flag, of
    the file rows and of the folder rows alike, records
    [connected = false] and returns without annotating any row; the
    scanning flag is released. *)
Theorem connectivity_failure_clears (env : Env) (s : State) :
  isScanning s = false -> env_status env = false ->
  let s' := snd (scanCurrentPage env s) in
  fst (scanCurrentPage env s) = Returned /\
  connected s' = false /\ isScanning s' = false /\ stats s' = zero_stats /\
  dom_files (dom s') = List.map cleared (dom_files (dom s)) /\
  dom_folders (dom s') = List.map cleared_folder (dom_folders (dom s)) /\
  Forall (fun e => fe_icon e = None /\ fe_processed e = false) (dom_files (dom s')) /\
  Forall (fun e => fo_icon e = None /\ fo_processed e = false) (dom_folders (dom s')).
Proof.
  intros H1 H2 s'.
  destruct (scan_offline env s H1 H2) as (Hr & Hc & Hi & Hs & Hf & Hd).
  fold s' in Hc, Hi, Hs, Hf, Hd.
  do 6 (split; [assumption|]). split.
  - rewrite Hf. apply List.Forall_forall. intros x Hx.
    apply List.in_map_iff in Hx as (y & <- & _). done.
  - rewrite Hd. apply List.Forall_forall. intros x Hx.
    apply List.in_map_iff in Hx as (y & <- & _). done.
Qed.

Lemma connectivity_failure_clears_witness :
  isScanning page_annotated = false /\ env_status server_down = false /\
  dom_files (dom (snd (scanCurrentPage server_down page_annotated))) =
    [mkFileElem "a.safetensors" false None] /\
  dom_folders (dom (snd (scanCurrentPage server_down page_annotated))) =
    [mkFolderElem "vae" false None].
Proof.
  split; [reflexivity|]. split; [reflexivity|].
  destruct (connectivity_failure_clears server_down page_annotated eq_refl eq_refl)
    as (_ & _ & _ & _ & Hf & Hd & _).
  rewrite Hf, Hd. split; reflexivity.
Defined.

(* ================================================================== *)
(** * Further properties of the script *)

(* ------------------------------------------------------------------ *)
(** ** [escapeHtml] *)

Lemma str_app_cons (x : ascii) (a b : string) : String x a ++ b = String x (a ++ b).
Proof. reflexivity. Qed.

Lemma str_app_nil_l (b : string) : "" ++ b = b.
Proof. reflexivity. Qed.

Lemma str_app_assoc (a b c : string) : (a ++ b) ++ c = a ++ (b ++ c).
Proof. induction a as [|x a IH]; [done|]. rewrite !str_app_cons. by rewrite IH. Qed.

Lemma str_app_nil_r (a : string) : a ++ "" = a.
Proof. induction a as [|x a IH]; [done|]. rewrite str_app_cons. by rewrite IH. Qed.

Lemma replace_all_app (c : ascii) (r a b : string) :
  replace_all c r (a ++ b) = replace_all c r a ++ replace_all c r b.
Proof.
  induction a as [|x a IH]; [done|]. rewrite str_app_cons. simpl.
  destruct (Ascii.eqb x c); rewrite IH; [apply eq_sym, str_app_assoc|done].
Qed.

Lemma escape_steps_app (a b : string) :
  escape_steps (a ++ b) = escape_steps a ++ escape_steps b.
Proof. unfold escape_steps. by rewrite !replace_all_app. Qed.

Lemma escape_steps_char (x : ascii) : escape_steps (String x "") = esc_char x.
Proof. destruct x as [[] [] [] [] [] [] [] []]; reflexivity. Qed.

Lemma escape_steps_all (s : string) : escape_steps s = esc_all s.
Proof.
  induction s as [|x s IH]; [done|].
  change (String x s) with (String x "" ++ s).
  rewrite escape_steps_app, escape_steps_char, IH. reflexivity.
Qed.

Lemma escapeHtml_all (s : string) : escapeHtml (Some s) = esc_all s.
Proof.
  destruct s as [|x s]; [done|]. apply (escape_steps_all (String x s)).
Qed.

Lemma str_has_app (c : ascii) (a b : string) :
  str_has c (a ++ b) = str_has c a || str_has c b.
Proof.
  induction a as [|x a IH]; [done|]. rewrite str_app_cons. simpl. by rewrite IH, orb_assoc.
Qed.

Lemma esc_char_safe (x : ascii) :
  str_has "<" (esc_char x) = false /\ str_has ">" (esc_char x) = false /\
  str_has quote_char (esc_char x) = false /\ str_has "'" (esc_char x) = false.
Proof. destruct x as [[] [] [] [] [] [] [] []]; repeat split. Qed.

Lemma unescape_esc_char (x : ascii) (t : string) :
  html_unescape (esc_char x ++ t) = String x (html_unescape t).
Proof. destruct x as [[] [] [] [] [] [] [] []]; reflexivity. Qed.

(** [escapeHtml] leaves none of the characters [<], [>], the double
    quote and ['] in its result, whatever its argument (including [null] or an empty
    string, which give the empty string). *)
Theorem escapeHtml_no_markup (str : option string) :
  str_has "<" (escapeHtml str) = false /\ str_has ">" (escapeHtml str) = false /\
  str_has quote_char (escapeHtml str) = false /\ str_has "'" (escapeHtml str) = false.
Proof.
  destruct str as [s|]; [|done]. rewrite escapeHtml_all.
  induction s as [|x s IH]; [done|]. simpl. rewrite !str_has_app.
  destruct (esc_char_safe x) as (H1 & H2 & H3 & H4). rewrite H1, H2, H3, H4.
  exact IH.
Qed.

(** Decoding the five entities in the output of [escapeHtml] gives back
    its argument; so two different strings are never escaped to the
    same text. *)
Theorem escapeHtml_round_trip (s : string) :
  html_unescape (escapeHtml (Some s)) = s /\
  (forall s', escapeHtml (Some s') = escapeHtml (Some s) -> s' = s).
Proof.
  assert (H : forall u, html_unescape (escapeHtml (Some u)) = u).
  { intros u. rewrite escapeHtml_all.
    induction u as [|x u IH]; [done|]. simpl. by rewrite unescape_esc_char, IH. }
  split; [apply H|]. intros s' Heq. by rewrite <- (H s'), <- (H s), Heq.
Qed.

(* ------------------------------------------------------------------ *)
(** ** [getRepoInfoFromUrl] and the page test of [init] *)

Lemma rev_str_app (s a b : string) : rev_str s (a ++ b) = rev_str s a ++ b.
Proof.
  revert a. induction s as [|c s IH]; intros a; [done|]. simpl.
  rewrite <- str_app_cons. apply IH.
Qed.

Lemma split_slash_aux_app (a b acc : string) :
  split_slash_aux (a ++ String "/" b) acc = (split_slash_aux a acc ++ split_slash_aux b "")%list.
Proof.
  revert acc. induction a as [|c a IH]; intros acc; [reflexivity|].
  rewrite str_app_cons. simpl. destruct (Ascii.eqb c "/").
  - simpl. by rewrite IH.
  - apply IH.
Qed.

Lemma path_parts_app (a b : string) :
  path_parts (a ++ "/" ++ b) = (path_parts a ++ path_parts b)%list.
Proof.
  unfold path_parts, split_slash. change ("/" ++ b) with (String "/" b).
  by rewrite split_slash_aux_app, List.filter_app.
Qed.

Lemma path_parts_empty : path_parts "" = [].
Proof. reflexivity. Qed.

Lemma path_parts_slash (b : string) : path_parts ("/" ++ b) = path_parts b.
Proof. change ("/" ++ b) with ("" ++ "/" ++ b). by rewrite path_parts_app. Qed.

Lemma split_slash_aux_plain (a acc : string) :
  str_has "/" a = false -> split_slash_aux a acc = [rev_str acc "" ++ a].
Proof.
  revert acc. induction a as [|c a IH]; intros acc Ha.
  - simpl. by rewrite str_app_nil_r.
  - simpl in Ha. apply orb_false_iff in Ha as [Hc Ha]. simpl. rewrite Hc, IH by done.
    simpl. change (String c "") with ("" ++ String c ""). rewrite rev_str_app.
    by rewrite str_app_assoc.
Qed.

Lemma path_parts_segment (a : string) :
  truthy_str a = true -> str_has "/" a = false -> path_parts a = [a].
Proof.
  intros Ht Ha. unfold path_parts, split_slash. rewrite split_slash_aux_plain by done.
  change (rev_str "" "" ++ a) with a. simpl. by rewrite Ht.
Qed.

Lemma getRepoInfoFromUrl_parts (p q : string) :
  path_parts p = path_parts q -> getRepoInfoFromUrl p = getRepoInfoFromUrl q.
Proof.
  intros H. unfold getRepoInfoFromUrl.
  change (List.filter truthy_str (split_slash p)) with (path_parts p).
  change (List.filter truthy_str (split_slash q)) with (path_parts q).
  by rewrite H.
Qed.

(** The repository context does not depend on empty path segments: a
    doubled [/] or a trailing [/] gives the same result. *)
Theorem getRepoInfoFromUrl_ignores_empty_segments (a b : string) :
  getRepoInfoFromUrl (a ++ "//" ++ b) = getRepoInfoFromUrl (a ++ "/" ++ b) /\
  getRepoInfoFromUrl (a ++ "/") = getRepoInfoFromUrl a.
Proof.
  split; apply getRepoInfoFromUrl_parts.
  - change ("//" ++ b) with ("/" ++ ("/" ++ b)).
    by rewrite !path_parts_app, path_parts_slash.
  - change (a ++ "/") with (a ++ "/" ++ "").
    by rewrite path_parts_app, path_parts_empty, app_nil_r.
Qed.

(** For an owner and a repository name that are non-empty, contain no
    [/] and are not [tree], the context of [/owner/repo] is the model
    [owner/repo] at revision [main]; after [/tree/rev] the revision is
    [rev], whatever follows; behind [/datasets/] or [/spaces/] the type
    is a dataset or a space. *)
Theorem getRepoInfoFromUrl_repo_paths (owner repo rev rest : string) :
  truthy_str owner = true -> str_has "/" owner = false ->
  truthy_str repo = true -> str_has "/" repo = false ->
  truthy_str rev = true -> str_has "/" rev = false ->
  owner <> "tree" -> repo <> "tree" ->
  (owner <> "datasets" -> owner <> "spaces" ->
   getRepoInfoFromUrl ("/" ++ owner ++ "/" ++ repo) =
     Some (mkRepoInfo (owner ++ "/" ++ repo) Model "main") /\
   getRepoInfoFromUrl ("/" ++ owner ++ "/" ++ repo ++ "/tree/" ++ rev ++ "/" ++ rest) =
     Some (mkRepoInfo (owner ++ "/" ++ repo) Model rev)) /\
  getRepoInfoFromUrl ("/datasets/" ++ owner ++ "/" ++ repo) =
    Some (mkRepoInfo (owner ++ "/" ++ repo) Dataset "main") /\
  getRepoInfoFromUrl ("/spaces/" ++ owner ++ "/" ++ repo) =
    Some (mkRepoInfo (owner ++ "/" ++ repo) Space "main").
Proof.
  intros Ho1 Ho2 Hr1 Hr2 Hv1 Hv2 Hot Hrt.
  apply String.eqb_neq in Hot, Hrt.
  assert (Hpr : path_parts (owner ++ "/" ++ repo) = [owner; repo])
    by (rewrite path_parts_app, !path_parts_segment by done; reflexivity).
  unfold getRepoInfoFromUrl.
  change (List.filter truthy_str (split_slash ?p)) with (path_parts p).
  split; [|split].
  - intros Hod Hos. apply String.eqb_neq in Hod, Hos. split.
    + rewrite path_parts_slash, Hpr. cbn -[String.eqb]. rewrite Hod, Hos. cbn -[String.eqb].
      rewrite String.eqb_sym in Hot, Hrt. rewrite Hot, Hrt. reflexivity.
    + change ("/tree/" ++ rev ++ "/" ++ rest) with ("/" ++ "tree" ++ "/" ++ rev ++ "/" ++ rest).
      rewrite path_parts_slash, !path_parts_app, !path_parts_segment by done.
      cbn -[String.eqb]. rewrite Hod, Hos. cbn -[String.eqb].
      rewrite String.eqb_sym in Hot, Hrt. rewrite Hot, Hrt. cbn -[String.eqb].
      rewrite String.eqb_refl. cbn -[String.eqb]. rewrite Hv1. reflexivity.
  - change ("/datasets/" ++ owner ++ "/" ++ repo) with ("/" ++ "datasets" ++ "/" ++ owner ++ "/" ++ repo).
    rewrite path_parts_slash, path_parts_app, Hpr, path_parts_segment by reflexivity.
    cbn -[String.eqb].
    rewrite String.eqb_sym in Hot, Hrt. rewrite Hot, Hrt. reflexivity.
  - change ("/spaces/" ++ owner ++ "/" ++ repo) with ("/" ++ "spaces" ++ "/" ++ owner ++ "/" ++ repo).
    rewrite path_parts_slash, path_parts_app, Hpr, path_parts_segment by reflexivity.
    cbn -[String.eqb].
    rewrite String.eqb_sym in Hot, Hrt. rewrite Hot, Hrt. reflexivity.
Qed.

(** Every path the repository context resolves is one [init] treats as a
    file browser. *)
Theorem isFileBrowser_of_repo_context (p : string) :
  getRepoInfoFromUrl p <> None -> isFileBrowser p = true.
Proof.
  unfold getRepoInfoFromUrl, isFileBrowser. intros H.
  apply orb_true_intro. right. apply Nat.leb_le.
  remember (List.filter truthy_str (split_slash p)) as parts eqn:E. clear E.
  destruct parts as [|x l]; [done|].
  destruct (String.eqb x "datasets"); [|destruct (String.eqb x "spaces")];
  cbv zeta in H;
  match type of H with context [if ?c then None else _] => destruct c eqn:Hc end;
    try done; apply Nat.ltb_ge in Hc; lia.
Qed.

(* ------------------------------------------------------------------ *)
(** ** Folder aggregation, beyond the classification *)

Lemma prefix_app_l (a b s : string) :
  String.prefix (a ++ b) s = true -> String.prefix a s = true.
Proof.
  revert s. induction a as [|x a IH]; intros s H; [by destruct s|].
  rewrite str_app_cons in H. destruct s as [|y s]; [done|]. simpl in *.
  destruct (ascii_dec x y); [by apply IH|done].
Qed.

Lemma prefix_self_app (a b : string) : String.prefix a (a ++ b) = true.
Proof.
  induction a as [|x a IH]; [by destruct b|]. rewrite str_app_cons. simpl.
  destruct (ascii_dec x x); [exact IH|done].
Qed.

Lemma in_folder_sub (fp q : string) (e : ManifestEntry) :
  in_folder (fp ++ "/" ++ q) e = true -> in_folder fp e = true.
Proof.
  unfold in_folder, startsWith. intros H. apply orb_true_intro. left.
  apply orb_prop in H as [H|H].
  - apply (prefix_app_l _ (q ++ "/")).
    replace ((fp ++ "/") ++ q ++ "/") with ((fp ++ "/" ++ q) ++ "/"); [exact H|].
    rewrite !str_app_assoc. reflexivity.
  - apply String.eqb_eq in H. rewrite H, <- str_app_assoc. apply prefix_self_app.
Qed.

Lemma filter_filter_sub {A} (p q : A -> bool) (l : list A) :
  (forall x, q x = true -> p x = true) ->
  List.filter q (List.filter p l) = List.filter q l.
Proof.
  intros H. induction l as [|a l IH]; [done|]. simpl.
  destruct (q a) eqn:Hq.
  - rewrite (H a Hq). simpl. rewrite Hq. by rewrite IH.
  - destruct (p a); simpl; [rewrite Hq|]; exact IH.
Qed.

Lemma count_filter_le (st : string) (q : ManifestEntry -> bool) (l : list ManifestEntry) :
  count_status st (List.filter q l) <= count_status st l.
Proof.
  unfold count_status. induction l as [|a l IH]; [done|]. simpl.
  destruct (q a); simpl; destruct (String.eqb (me_status a) st); simpl; lia.
Qed.

Lemma count_three_le (l : list ManifestEntry) :
  count_status "found" l + count_status "missing" l + count_status "mismatch" l <= length l.
Proof.
  unfold count_status. induction l as [|a l IH]; [done|]. cbn [List.filter length].
  destruct (String.eqb_spec (me_status a) "found") as [E|H1]; [rewrite E; cbn; lia|].
  destruct (String.eqb_spec (me_status a) "missing") as [E|H2]; [rewrite E; cbn; lia|].
  destruct (String.eqb_spec (me_status a) "mismatch") as [_|H3]; cbn [length]; lia.
Qed.

Lemma forallb_filter {A} (p q : A -> bool) (l : list A) :
  forallb p l = true -> forallb p (List.filter q l) = true.
Proof.
  induction l as [|a l IH]; [done|]. simpl. intros H. apply andb_prop in H as [H1 H2].
  destruct (q a); simpl; [rewrite H1|]; auto.
Qed.

(** The fields of [calculateFolderStatus] over the selected entries. *)
Lemma cfs_fields (fp : string) (es : list ManifestEntry) :
  let F := List.filter (in_folder fp) es in
  fs_total (calculateFolderStatus fp es) = length F /\
  fs_found (calculateFolderStatus fp es) = count_status "found" F /\
  fs_missing (calculateFolderStatus fp es) = count_status "missing" F /\
  fs_mismatch (calculateFolderStatus fp es) = count_status "mismatch" F /\
  (fs_status (calculateFolderStatus fp es) = Unknown <-> F = []) /\
  (fs_status (calculateFolderStatus fp es) = Match <->
     F <> [] /\ count_status "found" F = length F) /\
  (F <> [] -> count_status "found" F = 0 -> count_status "mismatch" F = 0 ->
     fs_status (calculateFolderStatus fp es) = Missing) /\
  (fs_status (calculateFolderStatus fp es) = Missing ->
     count_status "found" F = 0 /\ count_status "mismatch" F = 0).
Proof.
  intros F. unfold calculateFolderStatus. fold F.
  pose proof (count_three_le F) as H3.
  destruct F as [|e l] eqn:HF; [simpl; intuition congruence|].
  rewrite <- HF in *. cbn [fs_total fs_found fs_missing fs_mismatch fs_status].
  assert (Hne : F <> []) by (rewrite HF; done).
  assert (Hlen : length F <> 0) by (rewrite HF; done).
  do 4 (split; [done|]).
  destruct (Nat.eqb_spec (count_status "found" F) (length F)) as [Hf|Hf].
  - split; [split; done|]. split; [done|]. split; [intros; lia|]. intros H; done.
  - destruct (Nat.eqb_spec (count_status "missing" F) (length F)) as [Hm|Hm].
    + split; [split; done|]. split; [split; [done|intros [_ ?]; done]|].
      split; [done|]. intros _. lia.
    + destruct (Nat.ltb_spec 0 (count_status "found" F)),
               (Nat.ltb_spec 0 (count_status "mismatch" F)); simpl;
        (split; [split; done|]); (split; [split; [done|intros [_ ?]; done]|]);
        (split; [intros _ ? ?; (done || lia)|]); intros Hst; try done; split; lia.
Qed.

(** A subfolder's entries are among its parent's: each count of the
    subfolder is at most the parent's; an [unknown] parent has an
    [unknown] subfolder, a [match] parent a [match] or [unknown] one, a
    [missing] parent a [missing] or [unknown] one. *)
Theorem folder_status_nested (fp q : string) (es : list ManifestEntry) :
  let par := calculateFolderStatus fp es in
  let sub := calculateFolderStatus (fp ++ "/" ++ q) es in
  fs_total sub <= fs_total par /\ fs_found sub <= fs_found par /\
  fs_missing sub <= fs_missing par /\ fs_mismatch sub <= fs_mismatch par /\
  (fs_status par = Unknown -> fs_status sub = Unknown) /\
  (fs_status par = Match -> fs_status sub = Match \/ fs_status sub = Unknown) /\
  (fs_status par = Missing -> fs_status sub = Missing \/ fs_status sub = Unknown).
Proof.
  intros par sub.
  destruct (cfs_fields fp es) as (Pt & Pf & Pm & Px & Pu & Pmatch & _ & Pmiss).
  destruct (cfs_fields (fp ++ "/" ++ q) es) as (St & Sf & Sm & Sx & Su & Smatch & Smiss & _).
  fold par in Pt, Pf, Pm, Px, Pu, Pmatch, Pmiss.
  fold sub in St, Sf, Sm, Sx, Su, Smatch, Smiss.
  set (P := List.filter (in_folder fp) es) in *.
  set (S := List.filter (in_folder (fp ++ "/" ++ q)) es) in *.
  assert (HS : S = List.filter (in_folder (fp ++ "/" ++ q)) P).
  { unfold S, P. symmetry. apply filter_filter_sub. apply in_folder_sub. }
  rewrite Pt, Pf, Pm, Px, St, Sf, Sm, Sx, HS.
  split; [apply List.filter_length_le|].
  split; [apply count_filter_le|]. split; [apply count_filter_le|].
  split; [apply count_filter_le|].
  assert (HSd : S = [] \/ S <> []) by (destruct S; [left|right]; done).
  split; [|split].
  - intros H. apply Su. apply Pu in H. rewrite HS, H. reflexivity.
  - intros H. apply Pmatch in H as [_ H].
    assert (Hall : forallb (fun f => String.eqb (me_status f) "found") P = true).
    { rewrite <- filter_length_full. apply Nat.eqb_eq. exact H. }
    assert (HallS : forallb (fun f => String.eqb (me_status f) "found") S = true)
      by (rewrite HS; by apply forallb_filter).
    destruct HSd as [E|E]; [right; by apply Su|]. left. apply Smatch.
    split; [done|]. apply Nat.eqb_eq. unfold count_status. by rewrite filter_length_full.
  - intros H. apply Pmiss in H as [H1 H2].
    destruct HSd as [E|E]; [right; by apply Su|]. left. apply Smiss; [done| |].
    + pose proof (count_filter_le "found" (in_folder (fp ++ "/" ++ q)) P). rewrite HS. lia.
    + pose proof (count_filter_le "mismatch" (in_folder (fp ++ "/" ++ q)) P). rewrite HS. lia.
Qed.

(** The counts of a folder never exceed its total; it is [unknown]
    exactly when it has no entry; it is never [loading] nor [mismatch];
    a non-empty folder with no [found] and no [mismatch] entry is
    [missing], whatever the statuses of its entries are. *)
Theorem folder_status_shape (fp : string) (es : list ManifestEntry) :
  let st := calculateFolderStatus fp es in
  fs_found st + fs_missing st + fs_mismatch st <= fs_total st /\
  (fs_status st = Unknown <-> fs_total st = 0) /\
  fs_status st <> Loading /\ fs_status st <> Mismatch /\
  (fs_total st <> 0 -> fs_found st = 0 -> fs_mismatch st = 0 -> fs_status st = Missing).
Proof.
  intros st. destruct (cfs_fields fp es) as (Ht & Hf & Hm & Hx & Hu & _ & Hmiss & _).
  fold st in Ht, Hf, Hm, Hx, Hu, Hmiss.
  rewrite Ht, Hf, Hm, Hx. split; [apply count_three_le|].
  split; [rewrite Hu; destruct (List.filter _ _); simpl; split; done|].
  split; [|split].
  - unfold st, calculateFolderStatus. destruct (List.filter _ _); [done|].
    repeat match goal with |- context [if ?c then _ else _] => destruct c end; done.
  - unfold st, calculateFolderStatus. destruct (List.filter _ _); [done|].
    repeat match goal with |- context [if ?c then _ else _] => destruct c end; done.
  - intros H0 H1 H2. apply Hmiss; [|done|done]. intros E. rewrite E in H0. done.
Qed.

(* ------------------------------------------------------------------ *)
(** ** Folder rows *)

Lemma find_folder_rows_spec (i : nat) (els : list FolderElem) :
  snd (find_folder_rows i els) =
    List.map (fun e => if truthy_str (fo_path e) && negb (fo_processed e)
                       then mkFolderElem (fo_path e) true (fo_icon e) else e) els /\
  (forall r, In r (fst (find_folder_rows i els)) <->
     exists k e, els !! k = Some e /\ truthy_str (fo_path e) && negb (fo_processed e) = true /\
                 r = mkFolderRow (fo_path e) (i + k)) /\
  NoDup (List.map folder_elem (fst (find_folder_rows i els))) /\
  Forall (fun r => i <= folder_elem r) (fst (find_folder_rows i els)).
Proof.
  revert i. induction els as [|e els IH]; intros i.
  - simpl. split; [done|]. split; [|split; constructor].
    intros r. split; [done|]. intros (k & e & Hk & _). done.
  - simpl. destruct (find_folder_rows (S i) els) as [rows els''] eqn:Hf.
    destruct (IH (S i)) as (Hs & Hin & Hnd & Hge). rewrite Hf in Hs, Hin, Hnd, Hge.
    simpl in Hs, Hin, Hnd, Hge.
    replace (negb (truthy_str (fo_path e)) || fo_processed e)
      with (negb (truthy_str (fo_path e) && negb (fo_processed e)))
      by (destruct (truthy_str _), (fo_processed e); reflexivity).
    destruct (truthy_str (fo_path e) && negb (fo_processed e)) eqn:Hsel; simpl.
    + split; [by rewrite Hs|]. split; [|split].
      * intros r. split.
        -- intros [<-|Hr].
           ++ exists 0, e. split; [done|]. split; [done|]. by rewrite Nat.add_0_r.
           ++ apply Hin in Hr. destruct Hr as (k & e' & Hk & Hs' & ->).
              exists (S k), e'. split; [done|]. split; [done|]. f_equal. lia.
        -- intros (k & e' & Hk & Hs' & ->). destruct k as [|k].
           ++ left. simpl in Hk. injection Hk as <-. by rewrite Nat.add_0_r.
           ++ right. apply Hin. exists k, e'. split; [done|]. split; [done|]. f_equal. lia.
      * constructor; [|done]. simpl. intros Hin'.
        apply list_elem_of_In, List.in_map_iff in Hin'. destruct Hin' as (r & Hr & Hr').
        rewrite List.Forall_forall in Hge. specialize (Hge r Hr'). lia.
      * constructor; [simpl; lia|].
        eapply List.Forall_impl; [|exact Hge]. intros r Hr. simpl in Hr. lia.
    + split; [by rewrite Hs|]. split; [|split].
      * intros r. rewrite Hin. split.
        -- intros (k & e' & Hk & Hs' & ->). exists (S k), e'.
           split; [done|]. split; [done|]. f_equal. lia.
        -- intros (k & e' & Hk & Hs' & ->). destruct k as [|k].
           ++ simpl in Hk. injection Hk as <-. congruence.
           ++ exists k, e'. split; [done|]. split; [done|]. f_equal. lia.
      * done.
      * eapply List.Forall_impl; [|exact Hge]. intros r Hr. simpl in Hr. lia.
Qed.

Lemma find_folder_rows_none (i : nat) (els : list FolderElem) :
  Forall (fun e => truthy_str (fo_path e) = true -> fo_processed e = true) els ->
  find_folder_rows i els = ([], els).
Proof.
  revert i. induction els as [|e els IH]; intros i H; [done|].
  apply Forall_cons in H as [He H]. simpl. rewrite (IH (S i) H).
  destruct (truthy_str (fo_path e)) eqn:Ht; simpl; [|done].
  by rewrite (He eq_refl).
Qed.

Lemma find_folder_rows_nil (i : nat) (els : list FolderElem) :
  Forall (fun e => fo_processed e = false) els ->
  match fst (find_folder_rows i els) with [] => false | _ :: _ => true end =
  existsb (fun e => truthy_str (fo_path e)) els.
Proof.
  revert i. induction els as [|e els IH]; intros i H; [done|].
  apply Forall_cons in H as [He H]. simpl.
  specialize (IH (S i) H). destruct (find_folder_rows (S i) els) as [rows els''].
  simpl in IH. rewrite He. destruct (truthy_str (fo_path e)); simpl; [done|exact IH].
Qed.

Lemma find_folder_at (els : list FolderElem) (j : nat) :
  Forall (fun e => fo_processed e = false) els ->
  List.find (fun r => Nat.eqb (folder_elem r) j) (fst (find_folder_rows 0 els)) =
    match els !! j with
    | Some e => if truthy_str (fo_path e) then Some (mkFolderRow (fo_path e) j) else None
    | None => None
    end.
Proof.
  intros Hp. destruct (find_folder_rows_spec 0 els) as (_ & Hin & _ & _).
  destruct (List.find _ _) as [r|] eqn:Hf.
  - apply List.find_some in Hf as [Hr Hj]. apply Nat.eqb_eq in Hj.
    apply Hin in Hr. destruct Hr as (k & e & Hk & Hs & ->). simpl in Hj. subst j.
    rewrite Hk. apply andb_prop in Hs as [Hs _]. by rewrite Hs.
  - destruct (els !! j) as [e|] eqn:Hj; [|done].
    destruct (truthy_str (fo_path e)) eqn:Hs; [|done]. exfalso.
    assert (Hr : In (mkFolderRow (fo_path e) j) (fst (find_folder_rows 0 els))).
    { apply Hin. exists j, e. split; [done|]. split; [|done].
      rewrite Hs. rewrite List.Forall_forall in Hp.
      rewrite (Hp e); [done|]. apply list_elem_of_In. by eapply list_elem_of_lookup_2. }
    pose proof (List.find_none _ _ Hf _ Hr) as H. simpl in H.
    by rewrite Nat.eqb_refl in H.
Qed.

Lemma fold_folder_icons (f : State -> FolderRow -> State) (g : FolderRow -> Verdict)
    (rows : list FolderRow) (s : State) :
  (forall s1 r, dom_folders (dom (f s1 r)) =
     alter (fun e => mkFolderElem (fo_path e) (fo_processed e) (Some (g r)))
       (folder_elem r) (dom_folders (dom s1))) ->
  NoDup (List.map folder_elem rows) ->
  forall j, dom_folders (dom (fold_left f rows s)) !! j =
    match List.find (fun r => Nat.eqb (folder_elem r) j) rows with
    | Some r => (fun e => mkFolderElem (fo_path e) (fo_processed e) (Some (g r)))
                  <$> dom_folders (dom s) !! j
    | None => dom_folders (dom s) !! j
    end.
Proof.
  intros Hf. revert s. induction rows as [|r rows IH]; intros s Hnd j; [done|].
  simpl in Hnd. apply NoDup_cons in Hnd as [Hnot Hnd].
  simpl. rewrite (IH _ Hnd j), Hf.
  destruct (Nat.eqb_spec (folder_elem r) j) as [<-|Hne].
  - destruct (List.find (fun r0 => Nat.eqb (folder_elem r0) (folder_elem r)) rows)
      as [r'|] eqn:Hfd.
    + exfalso. apply List.find_some in Hfd as [Hin Heq].
      apply Nat.eqb_eq in Heq. apply Hnot. apply list_elem_of_In.
      apply List.in_map_iff. by exists r'.
    + apply list_lookup_alter_eq.
  - destruct (List.find _ rows); rewrite list_lookup_alter_ne by done; reflexivity.
Qed.

(** Once [findAllFolderRows] has run, a second call reports no folder row
    and changes nothing, until the flags are cleared: no folder row is
    reported twice. *)
Theorem findAllFolderRows_reports_once (s : State) :
  let s1 := snd (findAllFolderRows s) in
  findAllFolderRows s1 = (Done [], s1).
Proof.
  intros s1. unfold s1. rewrite !findAllFolderRows_eq. cbn [snd dom dom_folders set_dom].
  destruct (find_folder_rows_spec 0 (dom_folders (dom s))) as (Hs & _ & _ & _).
  rewrite (find_folder_rows_none 0 (snd (find_folder_rows 0 (dom_folders (dom s))))).
  - reflexivity.
  - rewrite Hs. apply List.Forall_forall. intros x Hx.
    apply List.in_map_iff in Hx as (e & <- & _).
    destruct (truthy_str (fo_path e) && negb (fo_processed e)) eqn:He; [done|].
    intros Ht. simpl. rewrite Ht in He. by destruct (fo_processed e).
Qed.

Lemma check_rows_folders (env : Env) (rows : list FileRow) (s : State) :
  dom_folders (dom (snd (check_rows env rows s))) = dom_folders (dom s).
Proof.
  unfold check_rows. destruct rows as [|r rows]; [done|].
  rewrite bind_modify, bind_get. unfold checkFiles, mbind, M_bind.
  destruct (negb _); [|destruct (env_batch env)]; cbn [snd modify];
    rewrite (fold_preserves (fun s => dom_folders (dom s))); reflexivity.
Qed.

Lemma fetch_repo_repoData (env : Env) (folders : list FolderRow) (s : State) :
  repoData (snd (fetch_repo_for_folders env folders s)) =
    match folders, repoData s with
    | _ :: _, None =>
        match getRepoInfoFromUrl (loc_pathname s) with
        | Some _ => env_repo env
        | None => None
        end
    | _, r => r
    end.
Proof.
  unfold fetch_repo_for_folders. rewrite bind_get. unfold mret, M_ret, modify.
  destruct folders, (repoData s) eqn:Hr; cbn; try rewrite Hr; try reflexivity.
  destruct (getRepoInfoFromUrl (loc_pathname s)); cbn; [|exact Hr].
  destruct (env_repo env); [reflexivity|exact Hr].
Qed.

Lemma folder_icons_spec (folders : list FolderRow) (s : State) :
  NoDup (List.map folder_elem folders) ->
  repoData (snd (folder_icons folders s)) = repoData s /\
  forall j, dom_folders (dom (snd (folder_icons folders s))) !! j =
    match List.find (fun r => Nat.eqb (folder_elem r) j) folders with
    | Some r => (fun e => mkFolderElem (fo_path e) (fo_processed e)
                   (Some (match repoData s with
                          | Some rd => fs_status (calculateFolderStatus (folderPath r) (rd_files rd))
                          | None => Unknown
                          end))) <$> dom_folders (dom s) !! j
    | None => dom_folders (dom s) !! j
    end.
Proof.
  intros Hnd. unfold folder_icons. rewrite bind_get.
  destruct (repoData s) as [rd|] eqn:Hr; cbn [snd modify];
    (split; [rewrite (fold_preserves repoData); [exact Hr|reflexivity]|]);
    intros j; apply fold_folder_icons; try exact Hnd; reflexivity.
Qed.

Lemma existsb_clear_folders (l : list FolderElem) :
  existsb (fun e => truthy_str (fo_path e))
    (List.map (fun e => mkFolderElem (fo_path e) false None) l) =
  existsb (fun e => truthy_str (fo_path e)) l.
Proof. induction l as [|e l IH]; [done|]. simpl. by rewrite IH. Qed.

(** The folder side of a pass that gets past the guard and finds the
    server answering: the manifest is fetched only when none is cached and
    a folder row is shown, and every folder row ends with the icon of its
    aggregate status over the manifest the pass ends with. *)
Lemma scan_folders (env : Env) (s : State) :
  isScanning s = false -> env_status env = true ->
  let s' := snd (scanCurrentPage env s) in
  repoData s' =
    match repoData s with
    | Some rd => Some rd
    | None =>
        if existsb (fun e => truthy_str (fo_path e)) (dom_folders (dom s)) then
          match getRepoInfoFromUrl (loc_pathname s) with
          | Some _ => env_repo env
          | None => None
          end
        else None
    end /\
  (forall j e, dom_folders (dom s) !! j = Some e ->
     dom_folders (dom s') !! j =
       Some (mkFolderElem (fo_path e) (truthy_str (fo_path e))
               (if truthy_str (fo_path e) then
                  Some (match repoData s' with
                        | Some rd => fs_status (calculateFolderStatus (fo_path e) (rd_files rd))
                        | None => Unknown
                        end)
                else None))).
Proof.
  intros H1 H2 s'. unfold s', scanCurrentPage, scan_with, scan_enter. rewrite H1.
  unfold try_finally, scan_body. rewrite !bind_modify.
  rewrite (bind_done (checkServerStatus env) _ _ (env_status env)
             (set_connected (env_status env) _) eq_refl).
  rewrite bind_get, H2. cbn [set_connected connected negb].
  set (sA := set_connected true (clear_processed (clear_icons
                (set_stats zero_stats (bump_passes (set_isScanning true s)))))).
  assert (HA : dom_folders (dom sA) =
                 List.map (fun e => mkFolderElem (fo_path e) false None) (dom_folders (dom s))).
  { unfold sA. cbn. rewrite List.map_map. reflexivity. }
  rewrite (bind_done findAllFileRows _ sA _ _ (findAllFileRows_eq sA)).
  set (rows := fst (find_file_rows 0 (dom_files (dom sA)))).
  destruct (find_file_rows_spec 0 (dom_files (dom sA))) as (_ & _ & Hnd & _).
  fold rows in Hnd.
  match goal with |- context [(findAllFolderRows ≫= _) ?x] => set (sB := x) end.
  assert (HB : dom_folders (dom sB) = dom_folders (dom sA)) by reflexivity.
  assert (HBp : Forall (fun e => fo_processed e = false) (dom_folders (dom sB))).
  { rewrite HB, HA. apply List.Forall_forall. intros x Hx.
    apply List.in_map_iff in Hx as (y & <- & _). reflexivity. }
  rewrite (bind_done findAllFolderRows _ sB _ _ (findAllFolderRows_eq sB)).
  match goal with |- context [fetch_repo_for_folders env ?fo] => set (folders := fo) end.
  destruct (find_folder_rows_spec 0 (dom_folders (dom sB))) as (HCs & _ & HFnd & _).
  fold folders in HFnd.
  rewrite !bind_modify.
  match goal with |- context [(fetch_repo_for_folders env folders ≫= _) ?x] => set (sE := x) end.
  destruct (fetch_repo_frame env folders sE) as (sF & HF & HFd & _ & _ & _).
  pose proof (fetch_repo_repoData env folders sE) as HFr. rewrite HF in HFr. simpl in HFr.
  rewrite (bind_done _ _ sE _ _ HF).
  destruct (folder_icons_spec folders sF HFnd) as [HGr HGd].
  destruct (folder_icons folders sF) as [oG sG] eqn:HG. simpl in HGr, HGd.
  destruct (folder_icons_frame folders sF) as (sG' & HG' & _ & _ & HGc & _ & _).
  rewrite HG in HG'. injection HG' as -> <-.
  rewrite (bind_done _ _ sF _ _ HG).
  pose proof (check_rows_folders env rows sG) as HHd.
  assert (HHr : repoData (snd (check_rows env rows sG)) = repoData sG).
  { assert (HEc : connected sE = true).
    { unfold sE. rewrite (fold_preserves connected); [|reflexivity].
      rewrite (fold_preserves connected); reflexivity. }
    destruct (check_rows_spec env rows sG) as (sH & HH & _ & HHr & _);
      [destruct (fetch_repo_frame env folders sE) as (? & HF2 & _ & _ & HFc & _);
       rewrite HF in HF2; injection HF2 as <-; congruence|exact Hnd|].
    by rewrite HH. }
  destruct (check_rows env rows sG) as [oH sH]. simpl in HHd, HHr.
  cbn [scan_exit modify snd set_isScanning repoData dom].
  assert (HEr : repoData sE = repoData s).
  { unfold sE. rewrite (fold_preserves repoData); [|reflexivity].
    rewrite (fold_preserves repoData); reflexivity. }
  assert (HEl : loc_pathname sE = loc_pathname s).
  { unfold sE. rewrite (fold_preserves loc_pathname); [|reflexivity].
    rewrite (fold_preserves loc_pathname); reflexivity. }
  assert (HEf : forall j, dom_folders (dom sE) !! j =
    match List.find (fun r => Nat.eqb (folder_elem r) j) folders with
    | Some r => (fun e => mkFolderElem (fo_path e) (fo_processed e) (Some Loading))
                  <$> snd (find_folder_rows 0 (dom_folders (dom sB))) !! j
    | None => snd (find_folder_rows 0 (dom_folders (dom sB))) !! j
    end).
  { intros j. unfold sE.
    rewrite (fold_folder_icons (fun s1 f => set_folder_icon (folder_elem f) Loading s1)
               (fun _ => Loading) _ _ (fun _ _ => eq_refl) HFnd j).
    rewrite (fold_preserves (fun s => dom_folders (dom s))); reflexivity. }
  assert (Hrd : repoData sH = repoData sF) by congruence.
  split.
  - transitivity (repoData sF); [exact Hrd|]. rewrite HFr, HEr, HEl.
    pose proof (find_folder_rows_nil 0 _ HBp) as Hex. fold folders in Hex.
    rewrite HB, HA, existsb_clear_folders in Hex.
    destruct (repoData s); [by destruct folders|].
    rewrite <- Hex. by destruct folders.
  - intros j e Hj. rewrite HHd, HGd, HFd, HEf, Hrd, HCs.
    unfold folders. rewrite find_folder_at by exact HBp.
    rewrite HB, HA, !lookup_List_map, Hj. simpl.
    destruct (truthy_str (fo_path e)); reflexivity.
Qed.

Lemma cleared_mark (l : list FileElem) :
  List.map cleared
    (List.map (fun e => if selectable e && negb (fe_processed e)
                        then mkFileElem (fe_path e) true (fe_icon e) else e) l) =
  List.map cleared l.
Proof.
  rewrite List.map_map. apply List.map_ext. intros e.
  by destruct (selectable e && negb (fe_processed e)).
Qed.

(** C8, as the code does it: a debounced callback starts a pass only if
    some not-yet-processed file row has no icon. The pass it starts first
    removes every icon and processed flag, of file and folder rows alike.
    When [/api/status] then answers, it re-evaluates every file row, those
    that already had a verdict included, leaves the rows it does not
    select without an icon, gives every folder row with a non-empty path
    its status, and [total] counts all selected rows; when the probe
    fails, every row is left without an icon and the counters at zero. *)
Theorem mutation_pass_scope (o : ObsEnv) (s : State) :
  let s' := snd (observer_tick o s) in
  (passes s' <> passes s ->
     exists j e, dom_files (dom s) !! j = Some e /\ selectable e = true /\
                 fe_processed e = false /\ fe_icon e = None) /\
  (passes s' <> passes s -> env_status (obs_pass o) = true ->
     (forall j e, dom_files (dom s) !! j = Some e ->
        dom_files (dom s') !! j =
          Some (mkFileElem (fe_path e) (selectable e)
                  (if selectable e
                   then Some (batch_verdict (obs_pass o) (repoData s') (row_of e j))
                   else None))) /\
     (forall j e, dom_folders (dom s) !! j = Some e ->
        dom_folders (dom s') !! j =
          Some (mkFolderElem (fo_path e) (truthy_str (fo_path e))
                  (if truthy_str (fo_path e) then
                     Some (match repoData s' with
                           | Some rd => fs_status (calculateFolderStatus (fo_path e) (rd_files rd))
                           | None => Unknown
                           end)
                   else None))) /\
     total (stats s') = length (List.filter selectable (dom_files (dom s)))) /\
  (passes s' <> passes s -> env_status (obs_pass o) = false ->
     dom_files (dom s') = List.map cleared (dom_files (dom s)) /\
     dom_folders (dom s') = List.map cleared_folder (dom_folders (dom s)) /\
     stats s' = zero_stats).
Proof.
  intros s'. unfold s', observer_tick. rewrite bind_get.
  destruct (connected s && negb (isScanning s)) eqn:Hg;
    [|split; [|split]; intros H; exfalso; by apply H].
  apply andb_prop in Hg as [_ Hg]. apply negb_true_iff in Hg.
  destruct (navigation_frame (obs_repo o) s) as (s1 & Hn & Hd1 & Hp1 & Hi1).
  rewrite (bind_done _ _ s _ _ Hn).
  rewrite (bind_done findAllFileRows _ s1 _ _ (findAllFileRows_eq s1)).
  rewrite bind_get.
  set (rows := fst (find_file_rows 0 (dom_files (dom s1)))).
  set (s2 := set_dom (mkDom (snd (find_file_rows 0 (dom_files (dom s1))))
                            (dom_folders (dom s1))) s1).
  destruct (find_file_rows_spec 0 (dom_files (dom s1))) as (Hsnd & Hin & _ & _).
  fold rows in Hin.
  assert (Hf2 : dom_files (dom s2) = List.map (fun e =>
      if selectable e && negb (fe_processed e)
      then mkFileElem (fe_path e) true (fe_icon e) else e) (dom_files (dom s)))
    by (rewrite <- Hd1; exact Hsnd).
  assert (Hd2 : dom_folders (dom s2) = dom_folders (dom s))
    by (cbn [s2 dom set_dom dom_folders]; by rewrite Hd1).
  destruct (List.filter (fun r => negb (has_icon s2 (row_elem r))) rows)
    as [|r0 un] eqn:Hu.
  { cbn. split; [|split]; intros H; exfalso; apply H; exact Hp1. }
  rewrite call_snd.
  assert (Hi2 : isScanning s2 = false) by (simpl; congruence).
  split; [|split].
  - intros _.
    assert (Hr0 : In r0 (List.filter (fun r => negb (has_icon s2 (row_elem r))) rows))
      by (rewrite Hu; left; reflexivity).
    apply List.filter_In in Hr0 as [Hr0 Hic].
    apply Hin in Hr0 as (k & e & Hk & Hs & ->).
    rewrite Hd1 in Hk. exists k, e.
    apply andb_prop in Hs as [Hs Hp]. apply negb_true_iff in Hp.
    split; [done|]. split; [done|]. split; [done|].
    unfold has_icon in Hic. simpl row_elem in Hic.
    rewrite Hf2, lookup_List_map, Hk in Hic. simpl in Hic.
    rewrite Hs, Hp in Hic. simpl in Hic.
    destruct (fe_icon e); done.
  - intros _ Hst.
    destruct (scan_connected (obs_pass o) s2 Hi2 Hst) as (_ & _ & _ & Hf & Ht & _).
    destruct (scan_folders (obs_pass o) s2 Hi2 Hst) as [_ Hfo].
    split; [|split].
    + intros j e Hj.
      assert (Hj2 : dom_files (dom s2) !! j = Some
        (if selectable e && negb (fe_processed e)
         then mkFileElem (fe_path e) true (fe_icon e) else e))
        by (rewrite Hf2, lookup_List_map, Hj; reflexivity).
      rewrite (Hf j _ Hj2).
      destruct (selectable e && negb (fe_processed e)); reflexivity.
    + intros j e Hj. rewrite <- Hd2 in Hj. exact (Hfo j e Hj).
    + rewrite Ht, Hf2. apply filter_selectable_mark.
  - intros _ Hst.
    destruct (scan_offline (obs_pass o) s2 Hi2 Hst) as (_ & _ & _ & Hs & Hf & Hd).
    split; [|split; [|exact Hs]].
    + rewrite Hf, Hf2. apply cleared_mark.
    + rewrite Hd, Hd2. reflexivity.
Qed.

Lemma mutation_pass_scope_witness :
  dom_files (dom (snd (observer_tick tick_env page_with_new_row))) !! 0 =
    Some (mkFileElem "a.safetensors" true
      (Some (batch_verdict (obs_pass tick_env)
               (repoData (snd (observer_tick tick_env page_with_new_row)))
               (row_of (mkFileElem "a.safetensors" true (Some Match)) 0)))) /\
  dom_files (dom (snd (observer_tick tick_down page_with_new_row))) =
    [mkFileElem "a.safetensors" false None; mkFileElem "b.safetensors" false None].
Proof.
  split.
  - destruct (mutation_pass_scope tick_env page_with_new_row) as (_ & H & _).
    destruct H as [H _].
    + vm_compute. discriminate.
    + reflexivity.
    + apply (H 0 (mkFileElem "a.safetensors" true (Some Match))); reflexivity.
  - destruct (mutation_pass_scope tick_down page_with_new_row) as (_ & _ & H).
    destruct H as [H _].
    + vm_compute. discriminate.
    + reflexivity.
    + rewrite H. reflexivity.
Defined.

Lemma cfs_not_loading (fp : string) (es : list ManifestEntry) :
  fs_status (calculateFolderStatus fp es) <> Loading.
Proof.
  unfold calculateFolderStatus. destruct (List.filter _ _); [done|].
  repeat match goal with |- context [if ?c then _ else _] => destruct c end; done.
Qed.

Lemma batch_verdict_not_loading (env : Env) (rd : option RepoData) (r : FileRow) :
  batch_verdict env rd r <> Loading.
Proof.
  unfold batch_verdict, row_verdict, verdict_of.
  destruct (env_batch env); [|done].
  destruct (row_result _ _) as [b|]; [|done].
  destruct (found b), (mismatch b); done.
Qed.

Lemma scan_dropped (env : Env) (s : State) :
  isScanning s = true -> scanCurrentPage env s = (Returned, s).
Proof.
  intros H. unfold scanCurrentPage, scan_with, scan_enter. by rewrite H.
Qed.

Lemma scan_offline_repoData (env : Env) (s : State) :
  isScanning s = false -> env_status env = false ->
  repoData (snd (scanCurrentPage env s)) = repoData s.
Proof.
  intros H1 H2. unfold scanCurrentPage, scan_with, scan_enter. rewrite H1.
  unfold try_finally, scan_body. rewrite !bind_modify.
  rewrite (bind_done (checkServerStatus env) _ _ (env_status env)
             (set_connected (env_status env) _) eq_refl).
  rewrite bind_get, H2. reflexivity.
Qed.

(** Whatever the server answers and whether the pass runs at all, a
    pass never replaces a cached manifest: it asks for one only when none
    is cached, the pass gets past the guard, the server answers the status
    probe, a folder row with a non-empty path is shown and the location
    names a repository; it then keeps what the request returns. *)
Theorem scan_manifest_fetch (env : Env) (s : State) :
  repoData (snd (scanCurrentPage env s)) =
    match repoData s with
    | Some rd => Some rd
    | None =>
        if negb (isScanning s) && env_status env &&
           existsb (fun e => truthy_str (fo_path e)) (dom_folders (dom s)) then
          match getRepoInfoFromUrl (loc_pathname s) with
          | Some _ => env_repo env
          | None => None
          end
        else None
    end.
Proof.
  destruct (isScanning s) eqn:H1.
  - rewrite scan_dropped by exact H1. simpl. by destruct (repoData s).
  - destruct (env_status env) eqn:H2.
    + destruct (scan_folders env s H1 H2) as [Hr _]. exact Hr.
    + rewrite scan_offline_repoData by assumption. by destruct (repoData s).
Qed.

(** After a pass that gets past the guard and finds the server answering,
    no file row and no folder row shows the loading icon: every file row
    the pass selects and every folder row with a non-empty path shows its
    final status, the folder rows the status of the folder over the
    manifest the pass ends with ([unknown] when there is none). *)
Theorem scan_leaves_no_loading (env : Env) (s : State) :
  isScanning s = false -> env_status env = true ->
  let s' := snd (scanCurrentPage env s) in
  (forall j e, dom_files (dom s) !! j = Some e ->
     exists e', dom_files (dom s') !! j = Some e' /\ fe_path e' = fe_path e /\
       fe_icon e' <> Some Loading /\
       (selectable e = true -> exists v, fe_icon e' = Some v) /\
       (selectable e = false -> fe_icon e' = None)) /\
  (forall j e, dom_folders (dom s) !! j = Some e ->
     exists e', dom_folders (dom s') !! j = Some e' /\ fo_path e' = fo_path e /\
       fo_icon e' <> Some Loading /\
       (truthy_str (fo_path e) = true ->
          fo_icon e' = Some (match repoData s' with
                             | Some rd => fs_status (calculateFolderStatus (fo_path e) (rd_files rd))
                             | None => Unknown
                             end)) /\
       (truthy_str (fo_path e) = false -> fo_icon e' = None)).
Proof.
  intros H1 H2 s'.
  destruct (scan_connected env s H1 H2) as (_ & _ & _ & Hf & _).
  destruct (scan_folders env s H1 H2) as [_ Hd].
  fold s' in Hf, Hd. split.
  - intros j e Hj. rewrite (Hf j e Hj). eexists. split; [reflexivity|].
    split; [done|]. cbn [fe_icon].
    split; [|split; intros Hs; rewrite Hs; [by eexists|done]].
    destruct (selectable e); [|done].
    intros E. injection E. apply batch_verdict_not_loading.
  - intros j e Hj. rewrite (Hd j e Hj). eexists. split; [reflexivity|].
    split; [done|]. cbn [fo_icon].
    split; [|split; intros Ht; rewrite Ht; done].
    destruct (truthy_str (fo_path e)); [|done].
    intros E. injection E. destruct (repoData s'); [apply cfs_not_loading|done].
Qed.

Lemma scan_repoData_cases (env : Env) (s : State) :
  repoData (snd (scanCurrentPage env s)) = repoData s \/
  (repoData s = None /\ repoData (snd (scanCurrentPage env s)) = env_repo env).
Proof.
  destruct (isScanning s) eqn:H1; [rewrite scan_dropped by exact H1; by left|].
  destruct (env_status env) eqn:H2; [|left; by apply scan_offline_repoData].
  destruct (scan_folders env s H1 H2) as [Hr _]. rewrite Hr.
  destruct (repoData s); [by left|].
  destruct (existsb _ _); [|by left].
  destruct (getRepoInfoFromUrl _); [by right|by left].
Qed.

(** [rescanServer] on a connected session: when the [/api/rescan] request
    fails nothing changes; when it succeeds the manifest cached before
    is dropped, and the session ends with no manifest or with the one the
    pass it starts fetched. *)
Theorem rescanServer_refreshes_manifest (status_ok : bool) (env : Env) (s : State) :
  connected s = true ->
  snd (rescanServer false status_ok env s) = s /\
  (repoData (snd (rescanServer true status_ok env s)) = None \/
   repoData (snd (rescanServer true status_ok env s)) = env_repo env).
Proof.
  intros Hc. unfold rescanServer. rewrite !bind_get, Hc. cbn [negb].
  split; [reflexivity|].
  unfold catch_all.
  rewrite (bind_done (mret tt) _ s tt s eq_refl).
  rewrite (bind_done (checkServerStatus _) _ s _ _ eq_refl), bind_modify.
  cbn [checkServerStatus env_status].
  set (s1 := set_repoData None (set_connected status_ok s)).
  pose proof (call_snd (scanCurrentPage env) s1) as Hcall.
  destruct (scan_repoData_cases env s1) as [H|[_ H]];
    destruct (call (scanCurrentPage env) s1) as [o s2]; simpl in Hcall;
    rewrite <- Hcall in H; destruct o; simpl; [left|left|left|right|right|right];
    exact H.
Qed.

(** [autoFetchRepoData] either changes nothing or stores the manifest the
    server returned together with its counters; it stores one only on a
    connected session whose location names a repository, and never when
    the cached manifest already belongs to that repository. *)
Theorem autoFetch_effect (answer : option RepoData) (s : State) :
  let s' := snd (autoFetchRepoData answer s) in
  s' = s \/
  (exists ri rd, connected s = true /\ getRepoInfoFromUrl (loc_pathname s) = Some ri /\
     match repoData s with
     | Some old => repo_id old <> ri_repoId ri
     | None => True
     end /\
     answer = Some rd /\
     s' = set_stats (mkStats (rd_found rd) (rd_mismatch rd) (rd_missing rd) (rd_total_files rd))
            (set_repoData (Some rd) s)).
Proof.
  intros s'. unfold s', autoFetchRepoData. rewrite bind_get.
  destruct (connected s) eqn:Hc; [|by left]. cbn [negb].
  destruct (getRepoInfoFromUrl (loc_pathname s)) as [ri|] eqn:Hg; [|by left].
  destruct answer as [rd|]; [|destruct (repoData s) as [old|];
    [destruct (String.eqb _ _)|]; by left].
  destruct (repoData s) as [old|] eqn:Hr.
  - destruct (String.eqb_spec (repo_id old) (ri_repoId ri)) as [E|E]; [by left|].
    right. exists ri, rd. do 4 (split; [done|]). reflexivity.
  - right. exists ri, rd. do 4 (split; [done|]). reflexivity.
Qed.

(** The URL-change branch of the mutation callback: on a connected
    session, when the location has changed to a repository other than the
    one of the cached manifest, the cached manifest is dropped and replaced
    by what the server returns for the new repository (nothing when the
    request fails); the new location is recorded and the page is left as it
    is. *)
Theorem navigation_drops_other_manifest (answer : option RepoData) (s : State)
    (ri : RepoInfo) (rd : RepoData) :
  connected s = true -> Some (loc_href s) <> lastUrl s ->
  getRepoInfoFromUrl (loc_pathname s) = Some ri -> repoData s = Some rd ->
  repo_id rd <> ri_repoId ri ->
  let s' := snd (navigation_check answer s) in
  repoData s' = answer /\ lastUrl s' = Some (loc_href s) /\ dom s' = dom s.
Proof.
  intros Hc Hu Hg Hr Hid s'. unfold s', navigation_check. rewrite bind_get.
  rewrite bool_decide_eq_false_2 by exact Hu. rewrite bind_modify.
  cbn [loc_pathname repoData set_lastUrl]. rewrite Hg, Hr.
  destruct (String.eqb_spec (repo_id rd) (ri_repoId ri)) as [E|_]; [contradiction|].
  cbn [negb]. rewrite bind_modify, call_snd.
  unfold autoFetchRepoData. rewrite bind_get.
  cbn [connected repoData loc_pathname set_repoData set_lastUrl]. rewrite Hc, Hg.
  cbn [negb]. destruct answer; (split; [|split]); reflexivity.
Qed.

Lemma updateFolderIcons_spec (rd : RepoData) (s : State) :
  repoData s = Some rd ->
  let s' := snd (updateFolderIcons s) in
  repoData s' = Some rd /\ dom_files (dom s') = dom_files (dom s) /\
  stats s' = stats s /\ connected s' = connected s /\
  forall j e, dom_folders (dom s) !! j = Some e ->
    dom_folders (dom s') !! j =
      Some (mkFolderElem (fo_path e) (truthy_str (fo_path e))
              (if truthy_str (fo_path e)
               then Some (fs_status (calculateFolderStatus (fo_path e) (rd_files rd)))
               else fo_icon e)).
Proof.
  intros Hr s'. unfold s', updateFolderIcons. rewrite bind_modify.
  set (s0 := map_folders (fun e => mkFolderElem (fo_path e) false (fo_icon e)) s).
  rewrite (bind_done findAllFolderRows _ s0 _ _ (findAllFolderRows_eq s0)).
  rewrite bind_get.
  set (s1 := set_dom _ s0). cbn [repoData s1 s0 map_folders set_dom]. rewrite Hr.
  assert (Hp : Forall (fun e => fo_processed e = false) (dom_folders (dom s0))).
  { apply List.Forall_forall. intros x Hx. cbn in Hx.
    apply List.in_map_iff in Hx as (y & <- & _). reflexivity. }
  destruct (find_folder_rows_spec 0 (dom_folders (dom s0))) as (Hs & _ & Hnd & _).
  cbn [snd modify].
  split; [rewrite (fold_preserves repoData); [exact Hr|reflexivity]|].
  split; [rewrite (fold_preserves (fun s => dom_files (dom s))); reflexivity|].
  split; [rewrite (fold_preserves stats); reflexivity|].
  split; [rewrite (fold_preserves connected); reflexivity|].
  intros j e Hj.
  rewrite (fold_folder_icons
             (fun s2 f => set_folder_icon (folder_elem f)
                (fs_status (calculateFolderStatus (folderPath f) (rd_files rd))) s2)
             (fun f => fs_status (calculateFolderStatus (folderPath f) (rd_files rd)))
             _ _ (fun _ _ => eq_refl) Hnd j).
  rewrite find_folder_at by exact Hp.
  cbn [s1 dom dom_folders set_dom]. rewrite Hs.
  cbn [s0 map_folders dom dom_folders set_dom]. rewrite !lookup_List_map, Hj. simpl.
  destruct (truthy_str (fo_path e)); reflexivity.
Qed.

(** [scanFullRepo] on a connected session whose location names a
    repository, when the server returns a manifest: the manifest is cached
    and every folder row with a non-empty path shows the status of its
    folder over it; the file rows and the counters are left as they are. *)
Theorem scanFullRepo_updates_folders (rd : RepoData) (s : State) :
  connected s = true -> getRepoInfoFromUrl (loc_pathname s) <> None ->
  let s' := snd (scanFullRepo (Some rd) s) in
  repoData s' = Some rd /\ dom_files (dom s') = dom_files (dom s) /\ stats s' = stats s /\
  forall j e, dom_folders (dom s) !! j = Some e ->
    dom_folders (dom s') !! j =
      Some (mkFolderElem (fo_path e) (truthy_str (fo_path e))
              (if truthy_str (fo_path e)
               then Some (fs_status (calculateFolderStatus (fo_path e) (rd_files rd)))
               else fo_icon e)).
Proof.
  intros Hc Hg s'. unfold s', scanFullRepo. rewrite bind_get, Hc. cbn [negb].
  destruct (getRepoInfoFromUrl (loc_pathname s)) as [ri|]; [|contradiction].
  rewrite bind_modify, call_snd.
  destruct (updateFolderIcons_spec rd (set_repoData (Some rd) s) eq_refl)
    as (H1 & H2 & H3 & _ & H5).
  split; [exact H1|]. split; [exact H2|]. split; [exact H3|]. exact H5.
Qed.

(** [scanFullRepo] changes nothing when the session is not connected, when
    the location names no repository, or when the request fails. *)
Theorem scanFullRepo_failure_unchanged (answer : option RepoData) (s : State) :
  connected s = false \/ getRepoInfoFromUrl (loc_pathname s) = None \/ answer = None ->
  snd (scanFullRepo answer s) = s.
Proof.
  intros H. unfold scanFullRepo. rewrite bind_get.
  destruct (connected s) eqn:Hc; [|reflexivity]. cbn [negb].
  destruct (getRepoInfoFromUrl (loc_pathname s)) eqn:Hg; [|reflexivity].
  destruct answer; [|reflexivity].
  exfalso. destruct H as [H|[H|H]]; discriminate.
Qed.

(** After a pass that gets past the guard, finds the server answering and
    gets an answer to the batch call, the three counters add up to
    [total], which is the number of file rows the pass selected. *)
Theorem scan_counters_add_up (env : Env) (s : State) (res : Results) :
  isScanning s = false -> env_status env = true -> env_batch env = Some res ->
  let s' := snd (scanCurrentPage env s) in
  matches (stats s') + mismatches (stats s') + missing (stats s') = total (stats s') /\
  total (stats s') = length (List.filter selectable (dom_files (dom s))).
Proof.
  intros H1 H2 H3 s'.
  destruct (scan_connected env s H1 H2) as (_ & _ & _ & _ & Ht & _ & Hs).
  split; [exact (Hs res H3)|exact Ht].
Qed.

Lemma getRepoInfoFromUrl_repo_paths_witness :
  getRepoInfoFromUrl ("/" ++ "alice" ++ "/" ++ "model-a" ++ "/tree/" ++ "dev" ++ "/" ++ "vae") =
    Some (mkRepoInfo ("alice" ++ "/" ++ "model-a") Model "dev").
Proof.
  destruct (getRepoInfoFromUrl_repo_paths "alice" "model-a" "dev" "vae"
              eq_refl eq_refl eq_refl eq_refl eq_refl eq_refl
              ltac:(discriminate) ltac:(discriminate)) as [H _].
  apply H; discriminate.
Defined.

Lemma isFileBrowser_of_repo_context_witness :
  getRepoInfoFromUrl "/alice/model-a" <> None /\ isFileBrowser "/alice/model-a" = true.
Proof.
  split; [cbv; discriminate|].
  apply isFileBrowser_of_repo_context. cbv; discriminate.
Defined.

Lemma scan_leaves_no_loading_witness :
  exists e', dom_files (dom (snd (scanCurrentPage (obs_pass tick_env) page_with_new_row))) !! 1
               = Some e' /\ fe_icon e' <> Some Loading.
Proof.
  destruct (scan_leaves_no_loading (obs_pass tick_env) page_with_new_row eq_refl eq_refl)
    as [Hf _].
  destruct (Hf 1 (mkFileElem "b.safetensors" false None) eq_refl) as (e' & H1 & _ & H3 & _).
  exists e'. split; assumption.
Defined.

Lemma rescanServer_refreshes_manifest_witness :
  connected page_one_file = true /\
  snd (rescanServer false true server_up_b page_one_file) = page_one_file.
Proof.
  split; [reflexivity|].
  apply (rescanServer_refreshes_manifest true server_up_b page_one_file eq_refl).
Defined.

Lemma navigation_drops_other_manifest_witness :
  repoData (snd (navigation_check (Some manifest_b) page_after_navigation)) = Some manifest_b.
Proof.
  apply (navigation_drops_other_manifest (Some manifest_b) page_after_navigation
           (mkRepoInfo "bob/model-b" Model "main") manifest_a);
    [reflexivity|cbv; discriminate|reflexivity|reflexivity|cbv; discriminate].
Defined.

Lemma scanFullRepo_updates_folders_witness :
  repoData (snd (scanFullRepo (Some manifest_b) page_after_navigation)) = Some manifest_b /\
  dom_folders (dom (snd (scanFullRepo (Some manifest_b) page_after_navigation))) !! 0 =
    Some (mkFolderElem "vae" true
            (Some (fs_status (calculateFolderStatus "vae" (rd_files manifest_b))))).
Proof.
  destruct (scanFullRepo_updates_folders manifest_b page_after_navigation eq_refl
              ltac:(cbv; discriminate)) as (H1 & _ & _ & H4).
  split; [exact H1|].
  rewrite (H4 0 (mkFolderElem "vae" false None) eq_refl). reflexivity.
Defined.

Lemma scanFullRepo_failure_unchanged_witness :
  snd (scanFullRepo None page_after_navigation) = page_after_navigation.
Proof.
  apply scanFullRepo_failure_unchanged. right; right; reflexivity.
Defined.

Lemma scan_counters_add_up_witness :
  let s' := snd (scanCurrentPage (obs_pass tick_env) page_with_new_row) in
  matches (stats s') + mismatches (stats s') + missing (stats s') = total (stats s').
Proof.
  destruct (scan_counters_add_up (obs_pass tick_env) page_with_new_row batch_now
              eq_refl eq_refl eq_refl) as [H _].
  exact H.
Defined.
